(** * EcoPort alert engine: a shallow embedding of [simple_ecoport.py]

    The development covers the classes [Config] (alert thresholds and
    emission factors), [DynamicDataGenerator], [AlertEngine] (the rule
    checks, the bounded alert history and the statistics) and
    [CarbonCalculator], and the pure expressions of [main] that order the
    alerts and compute the status lines.

    Modelling conventions.
    - Python numbers (floats and ints) are exact rationals [Q]; a comparison
      of two numbers is the comparison of the rationals.  Rounding of binary
      floating point is not modelled.
    - A telemetry record is a Python [dict] with string keys: a
      [gmap string Q]; reading an absent key raises [KeyError].  The
      [timestamp] entry is an instant, kept as a number.
    - The methods of [AlertEngine] append to [self.active_alerts] and may
      raise.  They live in a writer-and-exception monad [M]: a computation
      is the list of alerts appended so far together with its outcome, so
      that the alerts appended before an exception stay visible.
    - [numpy] scalars do not raise on a division by zero, Python floats do;
      both behaviours are kept ([np_rdiv], [py_div]).
    - The values that [DynamicDataGenerator] draws from [random] are
      parameters of its functions, and so is the clock. *)

From Stdlib Require Import QArith Qround Lia Lqa.
From stdpp Require Import gmap strings list sorting.

Open Scope Q_scope.

(** ** Numbers *)

Definition Qltb (a b : Q) : bool := negb (Qle_bool b a).

(** A [numpy.float64] value: a finite number, an infinity or not-a-number. *)
Inductive npfloat :=
  | Finite (q : Q)
  | PosInf
  | NegInf
  | NaN.

Definition Qsum (l : list Q) : Q := foldr Qplus 0 l.

(** [len(l)] as a number. *)
Definition Qlength (l : list Q) : Q := inject_Z (Z.of_nat (length l)).

(** [np.mean(l)]: the arithmetic mean, [nan] on an empty list. *)
Definition np_mean (l : list Q) : npfloat :=
  match l with
  | [] => NaN
  | _ :: _ => Finite (Qsum l / Qlength l)
  end.

(** [x * q] for a numpy scalar [x] and a Python number [q]. *)
Definition np_mul (x : npfloat) (q : Q) : npfloat :=
  match x with
  | Finite a => Finite (a * q)
  | PosInf => if Qltb 0 q then PosInf else if Qltb q 0 then NegInf else NaN
  | NegInf => if Qltb 0 q then NegInf else if Qltb q 0 then PosInf else NaN
  | NaN => NaN
  end.

(** [a > x] for a Python number [a] and a numpy scalar [x]. *)
Definition np_gt (a : Q) (x : npfloat) : bool :=
  match x with
  | Finite b => Qltb b a
  | PosInf => false
  | NegInf => true
  | NaN => false
  end.

(** [a / x] for a Python number [a] and a numpy scalar [x]: numpy's division,
    which yields an infinity or [nan] on a zero divisor and does not raise. *)
Definition np_rdiv (a : Q) (x : npfloat) : npfloat :=
  match x with
  | Finite b =>
      if Qeq_bool b 0 then
        if Qltb 0 a then PosInf else if Qltb a 0 then NegInf else NaN
      else Finite (a / b)
  | PosInf | NegInf => Finite 0
  | NaN => NaN
  end.

(** [x - q] for a numpy scalar [x] and a Python number [q]. *)
Definition np_sub (x : npfloat) (q : Q) : npfloat :=
  match x with Finite a => Finite (a - q) | _ => x end.

Fixpoint strictly_increasing (l : list Q) : bool :=
  match l with
  | a :: (b :: _) as tl => Qltb a b && strictly_increasing tl
  | _ => true
  end.

(** [np.polyfit(x, y, 1)]: slope and intercept of the least-squares line,
    by the normal equations. *)
Definition np_polyfit1 (x y : list Q) : Q * Q :=
  let n := Qlength x in
  let sx := Qsum x in
  let sy := Qsum y in
  let sxx := Qsum (zip_with Qmult x x) in
  let sxy := Qsum (zip_with Qmult x y) in
  let slope := (n * sxy - sx * sy) / (n * sxx - sx * sx) in
  (slope, (sy - slope * sx) / n).

(** [np.arange(n)]. *)
Definition np_arange (n : nat) : list Q :=
  (λ i : nat, inject_Z (Z.of_nat i)) <$> seq 0 n.

(** ** Python slices *)

(** [l[-n:]] for a positive literal [n]. *)
Definition py_last_n {A} (n : nat) (l : list A) : list A :=
  drop (length l - n) l.

(** [l[:-1]]. *)
Definition py_but_last {A} (l : list A) : list A :=
  take (length l - 1) l.

(** ** Alerts *)

(** A piece of a formatted message: literal text, a number printed with a
    fixed number of decimals ([{x:.0f}], [{x:.1f}]) or printed plainly
    ([{x}]). *)
Inductive piece :=
  | Lit (s : string)
  | Fixed (digits : nat) (x : npfloat)
  | Plain (q : Q).

Record Alert := mkAlert {
  type : string;
  priority : string;
  title : string;
  message : list piece;
  recommendation : string;
  timestamp : Q;
  category : string
}.

(** ** Exceptions and the monad of the checks *)

Inductive exn :=
  | KeyError (key : string)
  | IndexError
  | ZeroDivisionError.

Inductive outcome (A : Type) :=
  | Ret (a : A)
  | Raise (e : exn).
Arguments Ret {A} a.
Arguments Raise {A} e.

Definition M (A : Type) : Type := list Alert * outcome A.

#[global] Instance M_ret : MRet M := λ A a, ([], Ret a).

#[global] Instance M_bind : MBind M := λ A B f m,
  match m with
  | (w, Ret a) => let '(w', r) := f a in (w ++ w', r)
  | (w, Raise e) => (w, Raise e)
  end.

Arguments M_ret : simpl never.
Arguments M_bind : simpl never.

Definition raise {A} (e : exn) : M A := ([], Raise e).

(** [self.active_alerts.append(a)]. *)
Definition append (a : Alert) : M unit := ([a], Ret tt).

Definition emitted {A} (m : M A) : list Alert := m.1.
Definition result {A} (m : M A) : outcome A := m.2.

Abbreviation dict := (gmap string Q).

(** [d[k]]. *)
Definition getitem (d : dict) (k : string) : M Q :=
  match d !! k with
  | Some v => mret v
  | None => raise (KeyError k)
  end.

(** [l[i]] for a list, negative indices counting from the end. *)
Definition index (l : list Q) (i : Z) : M Q :=
  let j := (if i <? 0 then i + Z.of_nat (length l) else i)%Z in
  if (j <? 0)%Z then raise IndexError
  else match l !! Z.to_nat j with
       | Some v => mret v
       | None => raise IndexError
       end.

(** [a / b] on Python floats. *)
Definition py_div (a b : Q) : M Q :=
  if Qeq_bool b 0 then raise ZeroDivisionError else mret (a / b).

(** ** Config.ALERT_THRESHOLDS *)

Record ALERT_THRESHOLDS := mkThresholds {
  carbon_emission_high : Q;
  carbon_emission_critical : Q;
  energy_efficiency_low : Q;
  energy_consumption_spike : Q;
  vessel_congestion : Q;
  esg_score_low : Q;
  renewable_ratio_low : Q
}.

Definition default_thresholds : ALERT_THRESHOLDS :=
  {| carbon_emission_high := 1200;
     carbon_emission_critical := 1500;
     energy_efficiency_low := 70;
     energy_consumption_spike := 1.3;
     vessel_congestion := 250;
     esg_score_low := 60;
     renewable_ratio_low := 15 |}.

(** ** DynamicDataGenerator.get_trend_data *)

(** [historical_data[-hours:]]; the engine calls it with the default
    [hours=6].  With [hours = 0] the slice [l[-0:]] is the whole list. *)
Definition get_trend_data (historical_data : list dict) (hours : nat)
    : list dict :=
  match hours with
  | O => historical_data
  | S _ => py_last_n hours historical_data
  end.

(** ** AlertEngine *)

Record AlertEngine := mkEngine {
  active_alerts : list Alert;
  alert_history : list Alert
}.

(** [AlertEngine.__init__]. *)
Definition init : AlertEngine :=
  {| active_alerts := []; alert_history := [] |}.

(** [for x in l: body(x)]. *)
Definition for_each {A} (l : list A) (body : A → M unit) : M unit :=
  foldr (λ x k, body x;; k) (mret tt) l.

(** *** _check_carbon_emission_alerts *)

(** The level check: the [if]/[elif] on the current emission. *)
Definition carbon_level_block (th : ALERT_THRESHOLDS) (current_data : dict)
    (emission : Q) : M unit :=
  if Qltb (carbon_emission_critical th) emission then
    ts ← getitem current_data "timestamp";
    append {| type := "error";
              priority := "critical";
              title := "🚨 碳排放嚴重超標";
              message := [Lit "當前碳排放量 "; Fixed 0 (Finite emission);
                          Lit " 噸CO₂/小時，超過嚴重警戒值 ";
                          Plain (carbon_emission_critical th); Lit " 噸"];
              recommendation := "立即停止非必要高耗能設備，啟動緊急減排程序";
              timestamp := ts;
              category := "emission" |}
  else if Qltb (carbon_emission_high th) emission then
    ts ← getitem current_data "timestamp";
    append {| type := "warning";
              priority := "high";
              title := "⚠️ 碳排放量偏高";
              message := [Lit "當前碳排放量 "; Fixed 0 (Finite emission);
                          Lit " 噸CO₂/小時，超過預警值 ";
                          Plain (carbon_emission_high th); Lit " 噸"];
              recommendation := "建議優化作業調度，減少同時運行的高排放設備";
              timestamp := ts;
              category := "emission" |}
  else mret tt.

Definition carbon_trend_alert (increase_rate ts : Q) : Alert :=
  {| type := "warning";
     priority := "medium";
     title := "📈 碳排放持續上升";
     message := [Lit "過去3小時碳排放量持續上升，增幅達 ";
                 Fixed 1 (Finite increase_rate); Lit "%"];
     recommendation := "檢查設備運行狀態，考慮調整作業強度";
     timestamp := ts;
     category := "trend" |}.

(** The trend check on the last three samples of the history. *)
Definition carbon_trend_block (current_data : dict) (trend_data : list dict)
    : M unit :=
  if (3 <=? length trend_data)%nat then
    recent_emissions ←
      mapM (λ d, getitem d "carbon_emission") (py_last_n 3 trend_data);
    if strictly_increasing recent_emissions then
      last ← index recent_emissions (-1);
      first ← index recent_emissions 0;
      base ← index recent_emissions 0;
      ratio ← py_div (last - first) base;
      let increase_rate := ratio * 100 in
      if Qltb 15 increase_rate then
        ts ← getitem current_data "timestamp";
        append (carbon_trend_alert increase_rate ts)
      else mret tt
    else mret tt
  else mret tt.

Definition _check_carbon_emission_alerts (th : ALERT_THRESHOLDS)
    (current_data : dict) (trend_data : list dict) : M unit :=
  emission ← getitem current_data "carbon_emission";
  carbon_level_block th current_data emission;;
  carbon_trend_block current_data trend_data.

(** *** _check_energy_alerts *)

Definition efficiency_block (th : ALERT_THRESHOLDS) (current_data : dict)
    (efficiency : Q) : M unit :=
  if Qltb efficiency (energy_efficiency_low th) then
    ts ← getitem current_data "timestamp";
    append {| type := "warning";
              priority := "medium";
              title := "⚡ 能源效率偏低";
              message := [Lit "當前能源效率 "; Fixed 1 (Finite efficiency);
                          Lit "%，低於標準值 ";
                          Plain (energy_efficiency_low th); Lit "%"];
              recommendation := "檢查設備運行狀態，進行維護保養以提升效率";
              timestamp := ts;
              category := "efficiency" |}
  else mret tt.

(** The percentage printed by the spike alert:
    [(consumption/avg_consumption-1)*100]. *)
Definition spike_percentage (consumption : Q) (avg_consumption : npfloat)
    : npfloat :=
  np_mul (np_sub (np_rdiv consumption avg_consumption) 1) 100.

Definition spike_alert (consumption : Q) (avg_consumption : npfloat)
    (ts : Q) : Alert :=
  {| type := "error";
     priority := "high";
     title := "⚡ 能耗異常飆升";
     message := [Lit "當前能耗 "; Fixed 0 (Finite consumption);
                 Lit " kW，比平均值高出 ";
                 Fixed 0 (spike_percentage consumption avg_consumption);
                 Lit "%"];
     recommendation := "立即檢查所有設備運行狀態，查找異常耗能設備";
     timestamp := ts;
     category := "consumption" |}.

(** The consumption-spike check against the mean of the history without
    its last sample. *)
Definition spike_block (th : ALERT_THRESHOLDS) (current_data : dict)
    (trend_data : list dict) (consumption : Q) : M unit :=
  if (2 <=? length trend_data)%nat then
    samples ←
      mapM (λ d, getitem d "energy_consumption") (py_but_last trend_data);
    let avg_consumption := np_mean samples in
    if np_gt consumption (np_mul avg_consumption (energy_consumption_spike th))
    then
      ts ← getitem current_data "timestamp";
      append (spike_alert consumption avg_consumption ts)
    else mret tt
  else mret tt.

Definition renewable_block (th : ALERT_THRESHOLDS) (current_data : dict)
    (renewable : Q) : M unit :=
  if Qltb renewable (renewable_ratio_low th) then
    ts ← getitem current_data "timestamp";
    append {| type := "info";
              priority := "low";
              title := "🔋 再生能源使用不足";
              message := [Lit "再生能源使用比例僅 "; Fixed 1 (Finite renewable);
                          Lit "%，建議提升至 ";
                          Plain (renewable_ratio_low th); Lit "% 以上"];
              recommendation := "增加太陽能、風能等再生能源的使用";
              timestamp := ts;
              category := "renewable" |}
  else mret tt.

Definition _check_energy_alerts (th : ALERT_THRESHOLDS)
    (current_data : dict) (trend_data : list dict) : M unit :=
  efficiency ← getitem current_data "energy_efficiency";
  consumption ← getitem current_data "energy_consumption";
  renewable ← getitem current_data "renewable_ratio";
  efficiency_block th current_data efficiency;;
  spike_block th current_data trend_data consumption;;
  renewable_block th current_data renewable.

(** *** _check_equipment_alerts *)

Definition terminal_block (current_data : dict) (entry : string * Q)
    : M unit :=
  let '(terminal, power) := entry in
  if Qltb 700 power then
    ts ← getitem current_data "timestamp";
    append {| type := "warning";
              priority := "medium";
              title := "🏭 " +:+ terminal +:+ "功率異常";
              message := [Lit terminal; Lit "當前功率 "; Fixed 0 (Finite power);
                          Lit " kW，超過正常運行範圍"];
              recommendation :=
                "檢查" +:+ terminal +:+ "設備狀態，確認是否有設備故障";
              timestamp := ts;
              category := "equipment" |}
  else if Qltb power 100 then
    ts ← getitem current_data "timestamp";
    append {| type := "info";
              priority := "low";
              title := "🔧 " +:+ terminal +:+ "功率過低";
              message := [Lit terminal; Lit "當前功率僅 "; Fixed 0 (Finite power);
                          Lit " kW，設備可能未充分利用"];
              recommendation :=
                "確認" +:+ terminal +:+ "作業計畫，檢查是否需要增加設備運行";
              timestamp := ts;
              category := "equipment" |}
  else mret tt.

Definition _check_equipment_alerts (current_data : dict)
    (trend_data : list dict) : M unit :=
  p1 ← getitem current_data "terminal_1_power";
  p2 ← getitem current_data "terminal_2_power";
  p3 ← getitem current_data "terminal_3_power";
  let terminals := [("第1號碼頭", p1); ("第2號碼頭", p2); ("第3號碼頭", p3)] in
  for_each terminals (terminal_block current_data).

(** *** _check_environmental_alerts *)

Definition wind_block (current_data : dict) (wind_speed : Q) : M unit :=
  if Qltb 20 wind_speed then
    ts ← getitem current_data "timestamp";
    append {| type := "warning";
              priority := "medium";
              title := "🌪️ 強風天氣警示";
              message := [Lit "當前風速 "; Fixed 1 (Finite wind_speed);
                          Lit " m/s，可能影響貨櫃作業安全"];
              recommendation := "加強貨櫃固定，暫停高空作業，注意人員安全";
              timestamp := ts;
              category := "weather" |}
  else mret tt.

Definition aqi_block (current_data : dict) (aqi : Q) : M unit :=
  if Qltb 100 aqi then
    let level := if Qltb 150 aqi then "不健康" else "對敏感族群不健康" in
    ts ← getitem current_data "timestamp";
    append {| type := "warning";
              priority := "medium";
              title := "🌫️ 空氣品質警示";
              message := [Lit "當前AQI指數 "; Plain aqi; Lit "，空氣品質";
                          Lit level];
              recommendation :=
                "建議戶外作業人員配戴防護口罩，減少不必要的戶外活動";
              timestamp := ts;
              category := "environment" |}
  else mret tt.

Definition _check_environmental_alerts (current_data : dict) : M unit :=
  wind_speed ← getitem current_data "weather_wind_speed";
  aqi ← getitem current_data "air_quality_aqi";
  wind_block current_data wind_speed;;
  aqi_block current_data aqi.

(** *** _check_operational_alerts *)

Definition congestion_block (th : ALERT_THRESHOLDS) (current_data : dict)
    (vessel_count : Q) : M unit :=
  if Qltb (vessel_congestion th) vessel_count then
    ts ← getitem current_data "timestamp";
    append {| type := "warning";
              priority := "high";
              title := "🚢 港口船舶擁塞";
              message := [Lit "當前在港船舶 "; Plain vessel_count;
                          Lit " 艘，超過港口最佳容量"];
              recommendation :=
                "優化船舶調度，加快裝卸作業效率，考慮延後部分船舶進港";
              timestamp := ts;
              category := "operation" |}
  else mret tt.

Definition vessel_trend_block (current_data : dict) (trend_data : list dict)
    (vessel_count : Q) : M unit :=
  if (4 <=? length trend_data)%nat then
    recent_vessels ←
      mapM (λ d, getitem d "vessel_count") (py_last_n 4 trend_data);
    if strictly_increasing recent_vessels then
      ts ← getitem current_data "timestamp";
      append {| type := "info";
                priority := "medium";
                title := "📈 船舶數量持續增加";
                message := [Lit "過去4小時船舶數量持續增加，當前 ";
                            Plain vessel_count; Lit " 艘"];
                recommendation := "準備增加作業人力和設備，預防港口擁塞";
                timestamp := ts;
                category := "trend" |}
    else mret tt
  else mret tt.

Definition _check_operational_alerts (th : ALERT_THRESHOLDS)
    (current_data : dict) (trend_data : list dict) : M unit :=
  vessel_count ← getitem current_data "vessel_count";
  congestion_block th current_data vessel_count;;
  vessel_trend_block current_data trend_data vessel_count.

(** *** _check_esg_alerts *)

Definition _check_esg_alerts (th : ALERT_THRESHOLDS) (current_data : dict)
    : M unit :=
  esg_score ← getitem current_data "esg_score";
  if Qltb esg_score (esg_score_low th) then
    ts ← getitem current_data "timestamp";
    append {| type := "warning";
              priority := "medium";
              title := "📊 ESG評分偏低";
              message := [Lit "當前ESG評分 "; Plain esg_score;
                          Lit " 分，低於目標值 "; Plain (esg_score_low th);
                          Lit " 分"];
              recommendation :=
                "加強環境保護措施，提升社會責任表現，改善治理結構";
              timestamp := ts;
              category := "esg" |}
  else mret tt.

(** *** _check_predictive_alerts *)

(** The forecast of the predictive check:
    [coefficients[0] * (len(emissions) + 2) + coefficients[1]]. *)
Definition future_emission (emissions : list Q) : Q :=
  let x := np_arange (length emissions) in
  let coefficients := np_polyfit1 x emissions in
  coefficients.1 * inject_Z (Z.of_nat (length emissions + 2)) + coefficients.2.

Definition prediction_alert (forecast now : Q) : Alert :=
  {| type := "info";
     priority := "medium";
     title := "🔮 預測性警示";
     message := [Lit "根據趨勢分析，預計2小時後碳排放可能達到 ";
                 Fixed 0 (Finite forecast); Lit " 噸CO₂/小時"];
     recommendation := "建議提前調整作業計畫，避免排放峰值";
     timestamp := now;
     category := "prediction" |}.

(** [now] is the value of [datetime.now()] read when the alert is built. *)
Definition _check_predictive_alerts (th : ALERT_THRESHOLDS) (now : Q)
    (trend_data : list dict) : M unit :=
  if (6 <=? length trend_data)%nat then
    emissions ← mapM (λ d, getitem d "carbon_emission") trend_data;
    if Qltb (carbon_emission_high th) (future_emission emissions) then
      append (prediction_alert (future_emission emissions) now)
    else mret tt
  else mret tt.

(** *** _update_alert_history *)

Definition _update_alert_history (self : AlertEngine) : AlertEngine :=
  let history := alert_history self ++ active_alerts self in
  {| active_alerts := active_alerts self;
     alert_history :=
       if (50 <? length history)%nat then py_last_n 50 history else history |}.

(** *** analyze_and_generate_alerts *)

(** The seven checks in the order of the method body. *)
Definition run_checks (th : ALERT_THRESHOLDS) (now : Q) (current_data : dict)
    (trend_data : list dict) : M unit :=
  _check_carbon_emission_alerts th current_data trend_data;;
  _check_energy_alerts th current_data trend_data;;
  _check_equipment_alerts current_data trend_data;;
  _check_environmental_alerts current_data;;
  _check_operational_alerts th current_data trend_data;;
  _check_esg_alerts th current_data;;
  _check_predictive_alerts th now trend_data.

(** One evaluation cycle.  [current_data] and [trend_data] are what
    [get_latest_data()] and [get_trend_data()] returned to this call.  The
    method starts from an empty [self.active_alerts]; when a check raises,
    the alerts appended so far stay in [self.active_alerts] and the history
    is not touched. *)
Definition analyze_and_generate_alerts (th : ALERT_THRESHOLDS) (now : Q)
    (current_data : dict) (trend_data : list dict) (self : AlertEngine)
    : outcome (list Alert) * AlertEngine :=
  let checks := run_checks th now current_data trend_data in
  let self1 :=
    {| active_alerts := emitted checks; alert_history := alert_history self |} in
  match result checks with
  | Ret _ =>
      let self2 := _update_alert_history self1 in
      (Ret (active_alerts self2), self2)
  | Raise e => (Raise e, self1)
  end.

(** *** get_alert_statistics *)

(** A value of the statistics dictionary: the number under [total] or the
    counting dictionary under one of the [by_...] keys. *)
Inductive stat :=
  | Count (n : nat)
  | Counts (m : gmap string nat).

(** [d[k] = d.get(k, 0) + 1]. *)
Definition bump (k : string) (d : gmap string nat) : gmap string nat :=
  <[k := (default 0 (d !! k) + 1)%nat]> d.

(** The counting dictionary of one field of the alerts: the counting loop
    restricted to that field. *)
Definition count_by (field : Alert → string) (history : list Alert)
    : gmap string nat :=
  foldl (λ d alert, bump (field alert) d) ∅ history.

(** The loop of [get_alert_statistics]: one pass over the history that
    updates the three counting dictionaries. *)
Definition statistics_loop (history : list Alert)
    : gmap string nat * gmap string nat * gmap string nat :=
  foldl (λ '(by_type, by_category, by_priority) alert,
           (bump (type alert) by_type,
            bump (category alert) by_category,
            bump (priority alert) by_priority))
        (∅, ∅, ∅) history.

Definition get_alert_statistics (self : AlertEngine) : gmap string stat :=
  match alert_history self with
  | [] => ∅
  | _ :: _ =>
      let total := length (alert_history self) in
      let '(by_type, by_category, by_priority) :=
        statistics_loop (alert_history self) in
      <["by_priority" := Counts by_priority]>
        (<["by_category" := Counts by_category]>
           (<["by_type" := Counts by_type]>
              (<["total" := Count total]> ∅)))
  end.

(** ** Conditions of the specification and sample data *)


(** The arithmetic mean of a list of numbers. *)
Definition mean (l : list Q) : Q := Qsum l / Qlength l.

(** The firing condition of the consumption-spike rule on the consumption
    values [cs] of the history. *)
Definition spike_condition (th : ALERT_THRESHOLDS) (cs : list Q)
    (consumption : Q) : Prop :=
  (2 ≤ length cs)%nat ∧
  mean (py_but_last cs) * energy_consumption_spike th < consumption.

(** A history record with the three fields that the checks read from the
    history. *)
Definition history_record (emission consumption vessels : Q) : dict :=
  list_to_map [("carbon_emission", emission);
               ("energy_consumption", consumption);
               ("vessel_count", vessels)].

(** A history in which only the emissions vary. *)
Definition emission_history (es : list Q) : list dict :=
  (λ e, history_record e 500 100) <$> es.

(** A history in which only the consumptions vary. *)
Definition consumption_history (cs : list Q) : list dict :=
  (λ c, history_record 1000 c 100) <$> cs.

(** A snapshot inside every documented range that triggers no rule under
    [default_thresholds]. *)
Definition quiet_snapshot : dict :=
  list_to_map [("timestamp", 9); ("carbon_emission", 1000);
               ("energy_consumption", 500); ("energy_efficiency", 80);
               ("vessel_count", 100); ("renewable_ratio", 20);
               ("esg_score", 80); ("terminal_1_power", 300);
               ("terminal_2_power", 300); ("terminal_3_power", 300);
               ("weather_wind_speed", 5); ("air_quality_aqi", 50)].

(** The default thresholds with [carbon_emission_high] set to 1100. *)
Definition thresholds_high_1100 : ALERT_THRESHOLDS :=
  {| carbon_emission_high := 1100;
     carbon_emission_critical := 1500;
     energy_efficiency_low := 70;
     energy_consumption_spike := 1.3;
     vessel_congestion := 250;
     esg_score_low := 60;
     renewable_ratio_low := 15 |}.

(** The perfectly linear emission history of the forecast scenario. *)
Definition linear_emissions : list Q := [1000; 1020; 1040; 1060; 1080; 1100].

(** The numeric keys that the checks read from the current snapshot on
    every cycle. *)
Definition required_fields : list string :=
  ["carbon_emission"; "energy_efficiency"; "energy_consumption";
   "renewable_ratio"; "terminal_1_power"; "terminal_2_power";
   "terminal_3_power"; "weather_wind_speed"; "air_quality_aqi";
   "vessel_count"; "esg_score"].

(** A snapshot that carries every key of the data contract, whatever the
    values. *)
Definition complete_snapshot (d : dict) : Prop :=
  is_Some (d !! "timestamp") ∧ Forall (λ k, is_Some (d !! k)) required_fields.

(** A history whose records carry the three keys read from the history,
    with the emissions [es], none of them zero. *)
Definition complete_history (trend : list dict) (es : list Q) : Prop :=
  Forall2 (λ d e, d !! "carbon_emission" = Some e) trend es ∧
  Forall (λ e, ¬ e == 0) es ∧
  Forall (λ d, is_Some (d !! "energy_consumption") ∧
               is_Some (d !! "vessel_count")) trend.

(** [quiet_snapshot] with an energy efficiency below its range [0, 100]. *)
Definition corrupt_snapshot : dict :=
  <["energy_efficiency" := -20]> quiet_snapshot.


(** The engine states after any number of evaluation cycles, on arbitrary
    thresholds, snapshots and histories, whether a cycle returns or raises. *)
Inductive reachable : AlertEngine → Prop :=
  | reachable_init : reachable init
  | reachable_cycle th now cur trend self :
      reachable self →
      reachable (analyze_and_generate_alerts th now cur trend self).2.

(** An alert without its timestamp. *)
Definition erase_timestamp (a : Alert) : Alert :=
  {| type := type a;
     priority := priority a;
     title := title a;
     message := message a;
     recommendation := recommendation a;
     timestamp := 0;
     category := category a |}.

(** The sum of the counts of a counting dictionary. *)
Definition sum_counts (d : gmap string nat) : nat :=
  map_fold (λ _ n acc, (n + acc)%nat) 0%nat d.

(** How many alerts of a history have the value [k] in a field. *)
Definition occurrences (field : Alert → string) (k : string)
    (history : list Alert) : nat :=
  length (filter (λ a, field a = k) history).

(** The dictionary of a non-empty history, from the grouped counts. *)
Definition grouped_statistics (history : list Alert) : gmap string stat :=
  <["by_priority" := Counts (count_by priority history)]>
    (<["by_category" := Counts (count_by category history)]>
       (<["by_type" := Counts (count_by type history)]>
          (<["total" := Count (length history)]> ∅))).

(** An engine that has already run one cycle, on [corrupt_snapshot]: its
    history holds the efficiency alert of that cycle. *)
Definition used_engine : AlertEngine :=
  (analyze_and_generate_alerts default_thresholds 0 corrupt_snapshot [] init).2.



(** The sum of the squared residuals of the line [m * x + c] on the points
    [(x, y)]. *)
Definition squared_error (x y : list Q) (m c : Q) : Q :=
  Qsum (zip_with (λ xi yi, (yi - (m * xi + c)) * (yi - (m * xi + c))) x y).

(** * The rest of the program *)

(** ** CarbonCalculator *)

(** [round(x)]: the nearest integer, a tie going to the even one. *)
Definition py_round (q : Q) : Z :=
  let f := Qfloor q in
  let r := q - inject_Z f in
  if Qltb r (1 # 2) then f
  else if Qltb (1 # 2) r then (f + 1)%Z
  else if Z.even f then f else (f + 1)%Z.

(** [round(x, ndigits)]: the nearest multiple of [10 ** -ndigits]. *)
Definition py_round_to (ndigits : nat) (q : Q) : Q :=
  inject_Z (py_round (q * inject_Z (10 ^ Z.of_nat ndigits)))
  / inject_Z (10 ^ Z.of_nat ndigits).

(** [max(a, b)] and [min(a, b)] on numbers. *)
Definition py_max (a b : Q) : Q := if Qltb a b then b else a.
Definition py_min (a b : Q) : Q := if Qltb b a then b else a.

(** [Config.EMISSION_FACTORS]. *)
Definition EMISSION_FACTORS : gmap string Q :=
  list_to_map [("diesel", 2.68); ("heavy_oil", 3.15);
               ("natural_gas", 2.75); ("electricity", 0.502)].

(** [d.get(k, default)]. *)
Definition dict_get (d : gmap string Q) (k : string) (default : Q) : Q :=
  match d !! k with Some v => v | None => default end.

(** The [EMISSION_FACTORS[...]] reads cannot fail: both keys are in the
    table; the monad keeps the [KeyError] of the subscript all the same. *)
Definition calculate_ship_emissions (fuel_type : string)
    (operation_hours fuel_consumption : Q) : M Q :=
  diesel ← getitem EMISSION_FACTORS "diesel";
  let factor := dict_get EMISSION_FACTORS fuel_type diesel in
  let emission := (fuel_consumption * operation_hours * factor) / 1000 in
  mret (py_round_to 2 emission).

Definition calculate_port_equipment_emissions
    (power_consumption operation_hours : Q) : M Q :=
  factor ← getitem EMISSION_FACTORS "electricity";
  let emission := (power_consumption * operation_hours * factor) / 1000 in
  mret (py_round_to 2 emission).

Definition calculate_esg_score
    (carbon_emission energy_efficiency renewable_ratio : Q) : Z :=
  let carbon_score := py_max 0 (100 - carbon_emission / 10) in
  let total_score :=
    carbon_score * 0.4 + energy_efficiency * 0.3 + renewable_ratio * 0.3 in
  py_round (py_min 100 (py_max 0 total_score)).

(** ** Sorting *)

(** [sorted(l, key=key)]: the stable ascending sort, which compares the keys
    with [<] only.  The insertion keeps an element in front of the elements
    of the same key that followed it. *)
Fixpoint py_insert {A K} (ltb : K → K → bool) (key : A → K) (x : A)
    (l : list A) : list A :=
  match l with
  | [] => [x]
  | y :: l' =>
      if ltb (key y) (key x) then y :: py_insert ltb key x l'
      else x :: y :: l'
  end.

Definition py_sorted {A K} (ltb : K → K → bool) (key : A → K) (l : list A)
    : list A :=
  foldr (py_insert ltb key) [] l.

(** ** DynamicDataGenerator *)

(** The values drawn from the random generator for one record: by
    [_initialize_historical_data] the eleven metrics themselves, by
    [get_latest_data] the factors and the offsets applied to the metrics of
    the last record. *)
Record draws := mkDraws {
  rand_carbon_emission : Q;
  rand_energy_consumption : Q;
  rand_energy_efficiency : Q;
  rand_vessel_count : Q;
  rand_renewable_ratio : Q;
  rand_esg_score : Q;
  rand_terminal_1_power : Q;
  rand_terminal_2_power : Q;
  rand_terminal_3_power : Q;
  rand_weather_wind_speed : Q;
  rand_air_quality_aqi : Q
}.

(** The intervals of [random.uniform] and [random.randint] in
    [_initialize_historical_data]. *)
Definition initial_ranges (r : draws) : Prop :=
  800 <= rand_carbon_emission r <= 1300 ∧
  500 <= rand_energy_consumption r <= 2000 ∧
  65 <= rand_energy_efficiency r <= 90 ∧
  50 <= rand_vessel_count r <= 300 ∧
  10 <= rand_renewable_ratio r <= 35 ∧
  50 <= rand_esg_score r <= 95 ∧
  200 <= rand_terminal_1_power r <= 800 ∧
  150 <= rand_terminal_2_power r <= 600 ∧
  300 <= rand_terminal_3_power r <= 900 ∧
  5 <= rand_weather_wind_speed r <= 25 ∧
  20 <= rand_air_quality_aqi r <= 150.

(** [timedelta(hours=i)], in seconds. *)
Definition timedelta_hours (i : nat) : Q := 3600 * inject_Z (Z.of_nat i).

(** The record appended by the [i]-th turn of the loop. *)
Definition historical_record (base_time : Q) (i : nat) (r : draws) : dict :=
  list_to_map
    [("timestamp", base_time - timedelta_hours i);
     ("carbon_emission", rand_carbon_emission r);
     ("energy_consumption", rand_energy_consumption r);
     ("energy_efficiency", rand_energy_efficiency r);
     ("vessel_count", rand_vessel_count r);
     ("renewable_ratio", rand_renewable_ratio r);
     ("esg_score", rand_esg_score r);
     ("terminal_1_power", rand_terminal_1_power r);
     ("terminal_2_power", rand_terminal_2_power r);
     ("terminal_3_power", rand_terminal_3_power r);
     ("weather_wind_speed", rand_weather_wind_speed r);
     ("air_quality_aqi", rand_air_quality_aqi r)].

(** [random i] holds the draws of the [i]-th turn.  The key of the sort
    reads the timestamp that the loop has just stored in every record. *)
Definition _initialize_historical_data (base_time : Q) (random : nat → draws)
    : list dict :=
  let data := (λ i, historical_record base_time i (random i)) <$> seq 0 24 in
  py_sorted Qltb (λ x, default 0 (x !! "timestamp")) data.

(** [historical_data[-1]] raises [IndexError] on an empty list; [r] holds
    the draws of the call and [now] the value of [datetime.now()]. *)
Definition get_latest_data (historical_data : list dict) (now : Q) (r : draws)
    : M dict :=
  match last historical_data with
  | None => raise IndexError
  | Some latest =>
      carbon ← getitem latest "carbon_emission";
      consumption ← getitem latest "energy_consumption";
      efficiency ← getitem latest "energy_efficiency";
      vessels ← getitem latest "vessel_count";
      renewable ← getitem latest "renewable_ratio";
      esg ← getitem latest "esg_score";
      power_1 ← getitem latest "terminal_1_power";
      power_2 ← getitem latest "terminal_2_power";
      power_3 ← getitem latest "terminal_3_power";
      wind ← getitem latest "weather_wind_speed";
      aqi ← getitem latest "air_quality_aqi";
      mret (list_to_map
              [("timestamp", now);
               ("carbon_emission", carbon * rand_carbon_emission r);
               ("energy_consumption", consumption * rand_energy_consumption r);
               ("energy_efficiency",
                py_max 0 (py_min 100 (efficiency + rand_energy_efficiency r)));
               ("vessel_count", py_max 0 (vessels + rand_vessel_count r));
               ("renewable_ratio",
                py_max 0 (py_min 50 (renewable + rand_renewable_ratio r)));
               ("esg_score", py_max 0 (py_min 100 (esg + rand_esg_score r)));
               ("terminal_1_power", power_1 * rand_terminal_1_power r);
               ("terminal_2_power", power_2 * rand_terminal_2_power r);
               ("terminal_3_power", power_3 * rand_terminal_3_power r);
               ("weather_wind_speed",
                py_max 0 (wind + rand_weather_wind_speed r));
               ("air_quality_aqi",
                py_max 0 (py_min 300 (aqi + rand_air_quality_aqi r)))]
            ∪ latest)
  end.

(** ** The dashboard *)

(** The priority ranks of the alert tab and the rank of an alert,
    [priority_order.get(x['priority'], 4)]. *)
Definition priority_order : gmap string nat :=
  list_to_map [("critical", 0%nat); ("high", 1%nat); ("medium", 2%nat);
               ("low", 3%nat)].

Definition priority_rank (a : Alert) : nat :=
  default 4%nat (priority_order !! priority a).

(** The alerts in the order of display. *)
Definition sorted_alerts (active_alerts : list Alert) : list Alert :=
  py_sorted Nat.ltb priority_rank active_alerts.

(** The status shown under a terminal, under the wind speed and under the
    air quality index. *)
Definition terminal_status (power : Q) : string :=
  if Qltb 700 power || Qltb power 100 then "⚠️ 異常" else "✅ 正常".

Definition wind_status (wind_speed : Q) : string :=
  if Qltb 20 wind_speed then "⚠️ 強風" else "✅ 正常".

Definition aqi_status (aqi : Q) : string :=
  if Qltb 100 aqi then "⚠️ 不良" else "✅ 良好".

(** Draws outside the intervals of the generator, one for each clamp. *)
Definition extreme_draws : draws :=
  {| rand_carbon_emission := 1;
     rand_energy_consumption := 1;
     rand_energy_efficiency := 50;
     rand_vessel_count := -500;
     rand_renewable_ratio := 40;
     rand_esg_score := 30;
     rand_terminal_1_power := 1;
     rand_terminal_2_power := 1;
     rand_terminal_3_power := 1;
     rand_weather_wind_speed := -9;
     rand_air_quality_aqi := 400 |}.

(** The same draws on every turn of the initial loop, inside the intervals. *)
Definition steady_draws (i : nat) : draws :=
  {| rand_carbon_emission := 1000;
     rand_energy_consumption := 800;
     rand_energy_efficiency := 80;
     rand_vessel_count := 100;
     rand_renewable_ratio := 20;
     rand_esg_score := 80;
     rand_terminal_1_power := 300;
     rand_terminal_2_power := 300;
     rand_terminal_3_power := 400;
     rand_weather_wind_speed := 10;
     rand_air_quality_aqi := 50 |}.

(** ** The order and the vocabulary of the alerts *)

(** The categories of the alerts of one cycle when every rule fires, in the
    order of the checks. *)
Definition rule_categories : list string :=
  ["emission"; "trend"; "efficiency"; "consumption"; "renewable";
   "equipment"; "equipment"; "equipment"; "weather"; "environment";
   "operation"; "trend"; "esg"; "prediction"].

(** The values that the checks write into the three tag fields. *)
Definition well_formed_alert (a : Alert) : Prop :=
  In (type a) ["error"; "warning"; "info"] ∧
  In (priority a) ["critical"; "high"; "medium"; "low"] ∧
  In (category a) ["emission"; "trend"; "efficiency"; "consumption";
                   "renewable"; "equipment"; "weather"; "environment";
                   "operation"; "esg"; "prediction"].

(** A snapshot and a history on which each of the fourteen alerts is due. *)
Definition alarming_snapshot : dict :=
  list_to_map [("timestamp", 9); ("carbon_emission", 1600);
               ("energy_consumption", 5000); ("energy_efficiency", 50);
               ("vessel_count", 300); ("renewable_ratio", 5);
               ("esg_score", 40); ("terminal_1_power", 800);
               ("terminal_2_power", 50); ("terminal_3_power", 900);
               ("weather_wind_speed", 25); ("air_quality_aqi", 160)].

Definition alarming_history : list dict :=
  [history_record 1000 500 1; history_record 1100 500 2;
   history_record 1200 500 3; history_record 1300 500 4;
   history_record 1500 500 5; history_record 1800 500 6].

(** Thresholds with the high emission level moved above the critical one,
    as the slider of the dashboard (800 to 2000) allows. *)
Definition thresholds_high_1800 : ALERT_THRESHOLDS :=
  {| carbon_emission_high := 1800;
     carbon_emission_critical := 1500;
     energy_efficiency_low := 70;
     energy_consumption_spike := 1.3;
     vessel_congestion := 250;
     esg_score_low := 60;
     renewable_ratio_low := 15 |}.

(** [quiet_snapshot] without its timestamp. *)
Definition unstamped_snapshot : dict := delete "timestamp" quiet_snapshot.


(** The categories of the alerts that depend on the current snapshot only,
    in the order of the checks. *)
Definition snapshot_categories : list string :=
  ["emission"; "efficiency"; "renewable"; "equipment"; "equipment";
   "equipment"; "weather"; "environment"; "operation"; "esg"].

(** The alerts of a check are well formed and, the forecast apart, carry
    the timestamp of the snapshot. *)
Definition stamped_by (cur : dict) (a : Alert) : Prop :=
  well_formed_alert a ∧
  (category a ≠ "prediction" → cur !! "timestamp" = Some (timestamp a)).

(** The engine after one more cycle on [alarming_snapshot], and the engine
    after four such cycles, whose history is full. *)
Definition alarming_cycle (self : AlertEngine) : AlertEngine :=
  (analyze_and_generate_alerts default_thresholds 0 alarming_snapshot
     alarming_history self).2.

Definition full_engine : AlertEngine :=
  alarming_cycle (alarming_cycle (alarming_cycle (alarming_cycle init))).

(** * Properties *)

(** ** Comparisons and the monad *)

Lemma Qltb_lt (a b : Q) : Qltb a b = true ↔ a < b.
Proof.
  unfold Qltb. rewrite negb_true_iff.
  split.
  - intros H. apply Qnot_le_lt. intros Hle.
    apply Qle_bool_iff in Hle. congruence.
  - intros H. destruct (Qle_bool b a) eqn:E; [|reflexivity].
    apply Qle_bool_iff in E. exfalso. exact (Qlt_not_le _ _ H E).
Qed.

Lemma Qltb_ge (a b : Q) : Qltb a b = false ↔ b <= a.
Proof.
  unfold Qltb. rewrite negb_false_iff. apply Qle_bool_iff.
Qed.

Lemma ret_bind {A B} (a : A) (f : A → M B) : (mret a ≫= f) = f a.
Proof. unfold mret, M_ret, mbind, M_bind. destruct (f a); reflexivity. Qed.

Lemma raise_bind {A B} (e : exn) (f : A → M B) : (raise e ≫= f) = raise e.
Proof. reflexivity. Qed.

Lemma emitted_bind {A B} (m : M A) (f : A → M B) :
  emitted (m ≫= f) =
  emitted m ++ match result m with Ret a => emitted (f a) | Raise _ => [] end.
Proof.
  destruct m as [w [a|e]]; unfold mbind, M_bind, emitted, result; simpl.
  - destruct (f a); reflexivity.
  - symmetry. apply app_nil_r.
Qed.

Lemma result_bind {A B} (m : M A) (f : A → M B) :
  result (m ≫= f) =
  match result m with Ret a => result (f a) | Raise e => Raise e end.
Proof.
  destruct m as [w [a|e]]; unfold mbind, M_bind, emitted, result; simpl.
  - destruct (f a); reflexivity.
  - reflexivity.
Qed.

Lemma getitem_Some (d : dict) (k : string) (v : Q) :
  d !! k = Some v → getitem d k = mret v.
Proof. intros H. unfold getitem. rewrite H. reflexivity. Qed.

Lemma getitem_None (d : dict) (k : string) :
  d !! k = None → getitem d k = raise (KeyError k).
Proof. intros H. unfold getitem. rewrite H. reflexivity. Qed.

Lemma getitem_emitted (d : dict) (k : string) : emitted (getitem d k) = [].
Proof. unfold getitem. destruct (d !! k); reflexivity. Qed.

(** The list comprehension [[d[k] for d in ds]] over records that all carry
    the key. *)
Lemma mapM_getitem (k : string) (ds : list dict) (vs : list Q) :
  Forall2 (λ d v, d !! k = Some v) ds vs →
  mapM (λ d, getitem d k) ds = mret vs.
Proof.
  induction 1 as [|d v ds vs Hd _ IH]; simpl.
  - reflexivity.
  - rewrite (getitem_Some _ _ _ Hd), ret_bind, IH, ret_bind. reflexivity.
Qed.

Lemma mapM_getitem_emitted (k : string) (ds : list dict) :
  emitted (mapM (λ d, getitem d k) ds) = [].
Proof.
  induction ds as [|d ds IH]; simpl; [reflexivity|].
  rewrite emitted_bind, getitem_emitted. simpl.
  destruct (result (getitem d k)); [|reflexivity].
  rewrite emitted_bind, IH. simpl.
  destruct (result (mapM _ ds)); reflexivity.
Qed.

Lemma py_last_n_length {A} (n : nat) (l : list A) :
  length (py_last_n n l) = Nat.min n (length l).
Proof. unfold py_last_n. rewrite length_drop. lia. Qed.

Lemma py_last_n_Forall2 {A B} (P : A → B → Prop) (n : nat) l k :
  Forall2 P l k → Forall2 P (py_last_n n l) (py_last_n n k).
Proof.
  intros H. unfold py_last_n. rewrite (Forall2_length _ _ _ H).
  apply Forall2_drop, H.
Qed.

Lemma py_but_last_Forall2 {A B} (P : A → B → Prop) l k :
  Forall2 P l k → Forall2 P (py_but_last l) (py_but_last k).
Proof.
  intros H. unfold py_but_last. rewrite (Forall2_length _ _ _ H).
  apply Forall2_take, H.
Qed.

(** ** The carbon-emission level check *)

Lemma check_carbon_emission_split th (cur : dict) trend e ts :
  cur !! "carbon_emission" = Some e →
  cur !! "timestamp" = Some ts →
  emitted (_check_carbon_emission_alerts th cur trend) =
  emitted (carbon_level_block th cur e) ++ emitted (carbon_trend_block cur trend).
Proof.
  intros He Hts. unfold _check_carbon_emission_alerts.
  rewrite (getitem_Some _ _ _ He), ret_bind, emitted_bind.
  f_equal. unfold carbon_level_block.
  rewrite (getitem_Some _ _ _ Hts), !ret_bind.
  destruct (Qltb _ e); [reflexivity|].
  destruct (Qltb _ e); reflexivity.
Qed.


(** ** The carbon-emission trend check *)

Lemma py_div_nonzero (a b : Q) : ¬ b == 0 → py_div a b = mret (a / b).
Proof.
  intros H. unfold py_div. destruct (Qeq_bool b 0) eqn:E; [|reflexivity].
  apply Qeq_bool_iff in E. contradiction.
Qed.

Lemma py_div_zero (a b : Q) : b == 0 → py_div a b = raise ZeroDivisionError.
Proof.
  intros H. unfold py_div. apply Qeq_bool_iff in H. rewrite H. reflexivity.
Qed.



Lemma strictly_increasing_3 (a b c : Q) :
  strictly_increasing [a; b; c] = true ↔ a < b ∧ b < c.
Proof.
  simpl. rewrite andb_true_r, andb_true_iff, !Qltb_lt. reflexivity.
Qed.

Lemma index_first (a : Q) (l : list Q) : index (a :: l) 0 = mret a.
Proof. reflexivity. Qed.

Lemma index_last_3 (a b c : Q) : index [a; b; c] (-1) = mret c.
Proof. reflexivity. Qed.

Lemma list_of_length_3 {A} (l : list A) :
  length l = 3%nat → ∃ a b c, l = [a; b; c].
Proof.
  destruct l as [|a [|b [|c [|d l]]]]; simpl; try discriminate.
  intros _. eauto.
Qed.


(** ** The consumption-spike check *)

Lemma np_mean_nonempty (l : list Q) :
  (0 < length l)%nat → np_mean l = Finite (mean l).
Proof. destruct l; simpl; [lia|reflexivity]. Qed.

Lemma py_but_last_length {A} (l : list A) :
  length (py_but_last l) = (length l - 1)%nat.
Proof. unfold py_but_last. rewrite length_take. lia. Qed.

Lemma consumption_history_fields (cs : list Q) :
  Forall2 (λ d c, d !! "energy_consumption" = Some c) (consumption_history cs) cs.
Proof. induction cs; constructor; [reflexivity|assumption]. Qed.

Lemma emission_history_fields (es : list Q) :
  Forall2 (λ d e, d !! "carbon_emission" = Some e) (emission_history es) es.
Proof. induction es; constructor; [reflexivity|assumption]. Qed.

Lemma spike_block_cases th (cur : dict) (trend : list dict) (cs : list Q)
    (consumption ts : Q) :
  cur !! "timestamp" = Some ts →
  Forall2 (λ d c, d !! "energy_consumption" = Some c) trend cs →
  (spike_condition th cs consumption →
     spike_block th cur trend consumption =
     ([spike_alert consumption (Finite (mean (py_but_last cs))) ts], Ret tt)) ∧
  (¬ spike_condition th cs consumption →
     spike_block th cur trend consumption = ([], Ret tt)).
Proof.
  intros Hts Hcs.
  assert (Hlen : length trend = length cs) by exact (Forall2_length _ _ _ Hcs).
  assert (Hmap : mapM (λ d, getitem d "energy_consumption") (py_but_last trend)
                 = mret (py_but_last cs))
    by (apply mapM_getitem, py_but_last_Forall2, Hcs).
  unfold spike_block, spike_condition. rewrite Hlen.
  destruct (Nat.leb_spec 2 (length cs)) as [Hn|Hn].
  - rewrite Hmap, ret_bind.
    rewrite np_mean_nonempty by (rewrite py_but_last_length; lia).
    simpl np_mul. simpl np_gt.
    rewrite (getitem_Some _ _ _ Hts), ret_bind.
    destruct (Qltb _ consumption) eqn:E.
    + split; [reflexivity|]. apply Qltb_lt in E. intros H. exfalso. auto.
    + split; [|reflexivity]. intros [_ H]. apply Qltb_lt in H. congruence.
  - split; [lia|reflexivity].
Qed.


(** ** The predictive check *)

(** [np_polyfit1] is the least-squares line: no other line has a smaller
    sum of squared residuals. *)

Lemma Qlength_cons (a : Q) (x : list Q) : Qlength (a :: x) == Qlength x + 1.
Proof.
  unfold Qlength. simpl length.
  rewrite Nat2Z.inj_succ, <- Z.add_1_r, inject_Z_plus. reflexivity.
Qed.

Lemma Qlength_zero (x : list Q) : Qlength x == 0 → x = [].
Proof.
  destruct x; [reflexivity|]. unfold Qlength. simpl length.
  intros H. exfalso. unfold Qeq in H. simpl in H. lia.
Qed.

Lemma squared_error_expand (x y : list Q) (m c : Q) :
  length x = length y →
  squared_error x y m c ==
  Qsum (zip_with Qmult y y) - 2 * m * Qsum (zip_with Qmult x y)
  - 2 * c * Qsum y + m * m * Qsum (zip_with Qmult x x)
  + 2 * m * c * Qsum x + c * c * Qlength x.
Proof.
  revert y. induction x as [|a x IH]; intros [|b y] Hlen; try discriminate.
  - unfold squared_error, Qlength. simpl. ring.
  - injection Hlen as Hlen. specialize (IH y Hlen).
    rewrite Qlength_cons. unfold squared_error in *. simpl. rewrite IH. ring.
Qed.

Lemma square_nonneg (q : Q) : 0 <= q * q.
Proof. nra. Qed.

Lemma Qsum_squares_nonneg (f : Q → Q) (x : list Q) :
  0 <= Qsum ((λ xi, f xi * f xi) <$> x).
Proof.
  induction x as [|a x IH]; [discriminate|].
  change (0 <= f a * f a + Qsum ((λ xi, f xi * f xi) <$> x)).
  pose proof (square_nonneg (f a)). lra.
Qed.

Lemma quadratic_sum (x : list Q) (dm dc : Q) :
  Qsum ((λ xi, (dm * xi + dc) * (dm * xi + dc)) <$> x) ==
  dm * dm * Qsum (zip_with Qmult x x) + 2 * dm * dc * Qsum x
  + dc * dc * Qlength x.
Proof.
  induction x as [|a x IH]; [unfold Qlength; simpl; ring|].
  rewrite Qlength_cons.
  change (Qsum (_ <$> a :: x)) with
    ((dm * a + dc) * (dm * a + dc)
     + Qsum ((λ xi, (dm * xi + dc) * (dm * xi + dc)) <$> x)).
  rewrite IH. simpl. ring.
Qed.

Lemma np_polyfit1_least_squares (x y : list Q) (m c : Q) :
  length x = length y →
  ¬ Qlength x * Qsum (zip_with Qmult x x) - Qsum x * Qsum x == 0 →
  squared_error x y (np_polyfit1 x y).1 (np_polyfit1 x y).2
  <= squared_error x y m c.
Proof.
  intros Hlen HD.
  assert (Hn : ¬ Qlength x == 0).
  { intros H0. apply HD. rewrite (Qlength_zero x H0). reflexivity. }
  rewrite !squared_error_expand by exact Hlen.
  unfold np_polyfit1. cbn [fst snd].
  set (n := Qlength x) in *. set (sx := Qsum x) in *. set (sy := Qsum y).
  set (sxx := Qsum (zip_with Qmult x x)) in *.
  set (sxy := Qsum (zip_with Qmult x y)).
  set (syy := Qsum (zip_with Qmult y y)).
  set (s := (n * sxy - sx * sy) / (n * sxx - sx * sx)).
  set (i := (sy - s * sx) / n).
  pose proof (Qsum_squares_nonneg (λ xi, (m - s) * xi + (c - i)) x) as Hq.
  rewrite quadratic_sum in Hq. fold n sx sxx in Hq.
  assert (He : syy - 2 * m * sxy - 2 * c * sy + m * m * sxx
               + 2 * m * c * sx + c * c * n
               - (syy - 2 * s * sxy - 2 * i * sy + s * s * sxx
                  + 2 * s * i * sx + i * i * n)
               == (m - s) * (m - s) * sxx + 2 * (m - s) * (c - i) * sx
                  + (c - i) * (c - i) * n).
  { unfold i, s. field. split; assumption. }
  lra.
Qed.

(** The normal equations are solvable on the abscissas [np.arange(n)] as
    soon as there are two samples. *)

Lemma Qsum_app (l k : list Q) : Qsum (l ++ k) == Qsum l + Qsum k.
Proof. induction l as [|a l IH]; simpl; [ring|]. rewrite IH. ring. Qed.

Lemma zip_with_squares (x : list Q) :
  zip_with Qmult x x = (λ q, q * q) <$> x.
Proof.
  induction x as [|a x IH]; simpl; [reflexivity|]. rewrite IH. reflexivity.
Qed.

Lemma np_arange_S (n : nat) :
  np_arange (S n) = np_arange n ++ [inject_Z (Z.of_nat n)].
Proof. unfold np_arange. rewrite seq_S, fmap_app. reflexivity. Qed.

Lemma np_arange_length (n : nat) : length (np_arange n) = n.
Proof. unfold np_arange. rewrite length_fmap, length_seq. reflexivity. Qed.

Lemma inject_S (n : nat) :
  inject_Z (Z.of_nat (S n)) == inject_Z (Z.of_nat n) + 1.
Proof. rewrite Nat2Z.inj_succ, <- Z.add_1_r, inject_Z_plus. reflexivity. Qed.

Lemma sum_np_arange (n : nat) :
  2 * Qsum (np_arange n) == inject_Z (Z.of_nat n) * (inject_Z (Z.of_nat n) - 1).
Proof.
  induction n as [|n IH]; [reflexivity|].
  rewrite np_arange_S, Qsum_app, inject_S. simpl Qsum.
  set (N := inject_Z (Z.of_nat n)) in *. lra.
Qed.

Lemma sum_squares_np_arange (n : nat) :
  6 * Qsum (zip_with Qmult (np_arange n) (np_arange n)) ==
  (inject_Z (Z.of_nat n) - 1) * inject_Z (Z.of_nat n)
  * (2 * inject_Z (Z.of_nat n) - 1).
Proof.
  rewrite zip_with_squares.
  induction n as [|n IH]; [reflexivity|].
  rewrite np_arange_S, fmap_app, Qsum_app, inject_S. simpl Qsum.
  set (N := inject_Z (Z.of_nat n)) in *.
  set (S2 := Qsum _) in *.
  assert (E : 6 * (S2 + (N * N + 0)) == 6 * S2 + 6 * N * N) by ring.
  rewrite E, IH. ring.
Qed.

Lemma np_arange_determinant (n : nat) :
  (2 ≤ n)%nat →
  ¬ Qlength (np_arange n) * Qsum (zip_with Qmult (np_arange n) (np_arange n))
    - Qsum (np_arange n) * Qsum (np_arange n) == 0.
Proof.
  intros Hn. unfold Qlength. rewrite np_arange_length.
  pose proof (sum_np_arange n) as H1.
  pose proof (sum_squares_np_arange n) as H2.
  set (N := inject_Z (Z.of_nat n)) in *.
  set (sx := Qsum (np_arange n)) in *.
  set (sxx := Qsum (zip_with _ _ _)) in *.
  assert (HN : 2 <= N).
  { unfold N. change 2 with (inject_Z 2). rewrite <- Zle_Qle. lia. }
  assert (E : 12 * (N * sxx - sx * sx) == N * N * (N - 1) * (N + 1)).
  { assert (E0 : 12 * (N * sxx - sx * sx)
                 == 2 * N * (6 * sxx) - 3 * ((2 * sx) * (2 * sx))) by ring.
    rewrite E0, H1, H2. ring. }
  intros H0. rewrite H0 in E.
  assert (0 < N * N * (N - 1) * (N + 1)).
  { repeat apply Qmult_lt_0_compat; lra. }
  lra.
Qed.

(** The line fitted by the predictive check minimises the squared error on
    the points [(index, emission)]. *)
Lemma predictive_fit_least_squares (emissions : list Q) (m c : Q) :
  (2 ≤ length emissions)%nat →
  let x := np_arange (length emissions) in
  squared_error x emissions (np_polyfit1 x emissions).1
    (np_polyfit1 x emissions).2
  <= squared_error x emissions m c.
Proof.
  intros Hn x. apply np_polyfit1_least_squares.
  - unfold x. apply np_arange_length.
  - apply np_arange_determinant, Hn.
Qed.

(** On a history that lies exactly on a line the fit recovers the line, and
    the forecast is its value at [len(emissions) + 2]. *)

Lemma Qlength_fmap (f : Q → Q) (x : list Q) : Qlength (f <$> x) = Qlength x.
Proof. unfold Qlength. rewrite length_fmap. reflexivity. Qed.





(** C1: on the linear history [1000, 1020, 1040, 1060, 1080, 1100] the fitted
    line has slope 20 and intercept 1000; its value 2 steps beyond the last
    index (index 7) is 1140, but the check evaluates it at
    [len(emissions) + 2 = 8] and obtains 1160; with
    [carbon_emission_high = 1100] it appends one info/medium alert that
    carries 1160. *)
Theorem predictive_forecast_linear_history (now : Q) :
  let fit := np_polyfit1 (np_arange (length linear_emissions)) linear_emissions in
  fit.1 == 20 ∧ fit.2 == 1000 ∧
  fit.1 * 7 + fit.2 == 1140 ∧
  future_emission linear_emissions == 1160 ∧
  ¬ future_emission linear_emissions == 1140 ∧
  _check_predictive_alerts thresholds_high_1100 now
    (emission_history linear_emissions) =
  ([prediction_alert (future_emission linear_emissions) now], Ret tt) ∧
  type (prediction_alert (future_emission linear_emissions) now) = "info" ∧
  priority (prediction_alert (future_emission linear_emissions) now) = "medium".
Proof.
  cbv zeta. repeat split; try reflexivity; discriminate.
Qed.

(** ** Degenerate arithmetic *)

Lemma mapM_getitem_result (k : string) (ds : list dict) :
  (∃ vs, result (mapM (λ d, getitem d k) ds) = Ret vs) ∨
  result (mapM (λ d, getitem d k) ds) = Raise (KeyError k).
Proof.
  induction ds as [|d ds IH]; simpl.
  - left. eexists. reflexivity.
  - destruct (d !! k) as [v|] eqn:E.
    + rewrite (getitem_Some _ _ _ E), ret_bind, result_bind.
      destruct IH as [[vs ->]| ->]; [left|right; reflexivity].
      eexists. reflexivity.
    + rewrite (getitem_None _ _ E). right. reflexivity.
Qed.

Lemma spike_block_no_division_fault th (cur : dict) (trend : list dict)
    (consumption : Q) :
  result (spike_block th cur trend consumption) ≠ Raise ZeroDivisionError.
Proof.
  unfold spike_block. destruct (2 <=? length trend)%nat; [|discriminate].
  rewrite result_bind.
  destruct (mapM_getitem_result "energy_consumption" (py_but_last trend))
    as [[vs ->]| ->]; [|discriminate].
  destruct (np_gt _ _); [|discriminate].
  unfold getitem. destruct (cur !! "timestamp"); discriminate.
Qed.

Lemma zero_times (m r : Q) : m == 0 → m * r == 0.
Proof. intros ->. ring. Qed.

(** The inputs on which the claim of C2 fails: a rising window that starts
    at zero makes the trend check raise, and a zero mean lets the spike check
    fire. *)
Lemma degenerate_arithmetic_counterexample :
  py_last_n 3 [0; 1; 2] = [0; 1; 2] ∧
  carbon_trend_block quiet_snapshot (emission_history [0; 1; 2])
  = ([], Raise ZeroDivisionError) ∧
  mean (py_but_last [0; 0]) == 0 ∧
  spike_block default_thresholds quiet_snapshot (consumption_history [0; 0]) 5
  = ([spike_alert 5 (Finite (mean [0])) 9], Ret tt).
Proof. repeat split. Qed.

(** C2, as the code has it: the spike check never raises a division fault;
    with a zero mean it stays silent when the current consumption is not
    positive and fires, reporting an infinite percentage, when it is
    positive; the trend check with a zero baseline stays silent and returns
    normally when the last 3 samples do not rise strictly. *)
Theorem degenerate_arithmetic_behaviour th (cur : dict) (trend : list dict)
    (cs es : list Q) (consumption ts : Q) :
  cur !! "timestamp" = Some ts →
  result (spike_block th cur trend consumption) ≠ Raise ZeroDivisionError ∧
  (Forall2 (λ d c, d !! "energy_consumption" = Some c) trend cs →
   (2 ≤ length cs)%nat → mean (py_but_last cs) == 0 →
   (consumption <= 0 →
      spike_block th cur trend consumption = ([], Ret tt)) ∧
   (0 < consumption →
      spike_block th cur trend consumption =
      ([spike_alert consumption (Finite (mean (py_but_last cs))) ts], Ret tt) ∧
      spike_percentage consumption (Finite (mean (py_but_last cs))) = PosInf)) ∧
  (Forall2 (λ d e, d !! "carbon_emission" = Some e) trend es →
   ∀ a b c, py_last_n 3 es = [a; b; c] → a == 0 → ¬ (a < b ∧ b < c) →
     carbon_trend_block cur trend = ([], Ret tt)).
Proof.
  intros Hts. split; [apply spike_block_no_division_fault|]. split.
  - intros Hvs Hn Hm.
    destruct (spike_block_cases th cur trend cs consumption ts Hts Hvs)
      as [H1 H2].
    pose proof (zero_times _ (energy_consumption_spike th) Hm) as Hz.
    split.
    + intros Hle. apply H2. intros [_ Hlt]. rewrite Hz in Hlt.
      exact (Qlt_not_le _ _ Hlt Hle).
    + intros Hpos. split.
      * apply H1. split; [exact Hn|]. rewrite Hz. exact Hpos.
      * unfold spike_percentage, np_rdiv.
        apply Qeq_bool_iff in Hm. rewrite Hm.
        rewrite (proj2 (Qltb_lt _ _) Hpos). reflexivity.
  - intros Hvs a b c Hl Ha Hinc.
    unfold carbon_trend_block.
    destruct (3 <=? length trend)%nat; [|reflexivity].
    rewrite (mapM_getitem _ _ (py_last_n 3 es))
      by (apply py_last_n_Forall2, Hvs).
    rewrite ret_bind, Hl.
    destruct (strictly_increasing [a; b; c]) eqn:E; [|reflexivity].
    apply strictly_increasing_3 in E. contradiction.
Qed.

(** ** Which inputs make a cycle raise *)






(** The blocks return normally on complete inputs. *)

Lemma Forall_is_Some_Forall2 (k : string) (ds : list dict) :
  Forall (λ d, is_Some (d !! k)) ds →
  ∃ vs, Forall2 (λ d v, d !! k = Some v) ds vs.
Proof.
  induction 1 as [|d ds [v Hv] _ [vs IH]].
  - exists []. constructor.
  - exists (v :: vs). constructor; assumption.
Qed.

Lemma predictive_returns th now trend es :
  Forall2 (λ d e, d !! "carbon_emission" = Some e) trend es →
  result (_check_predictive_alerts th now trend) = Ret tt.
Proof.
  intros Hes. unfold _check_predictive_alerts.
  rewrite (mapM_getitem _ _ es) by exact Hes.
  rewrite ret_bind.
  destruct (6 <=? length trend)%nat; [|reflexivity].
  destruct (Qltb _ _); reflexivity.
Qed.

Section stamped_snapshot.
(** A current snapshot that carries its timestamp. *)
Context (cur : dict) (ts : Q).
Hypothesis Hts : cur !! "timestamp" = Some ts.

(** Every alert of the blocks below is built after reading the
    timestamp, under a chain of conditionals. *)
Ltac stamp :=
  repeat first
    [ rewrite (getitem_Some _ _ _ Hts)
    | rewrite ret_bind
    | match goal with
      | |- context [if ?c then _ else _] => destruct c
      end ];
  try reflexivity.

Lemma carbon_level_block_returns th e :
  result (carbon_level_block th cur e) = Ret tt.
Proof. unfold carbon_level_block. stamp. Qed.

Lemma efficiency_block_returns th e :
  result (efficiency_block th cur e) = Ret tt.
Proof. unfold efficiency_block. stamp. Qed.

Lemma renewable_block_returns th r :
  result (renewable_block th cur r) = Ret tt.
Proof. unfold renewable_block. stamp. Qed.

Lemma terminal_block_returns entry :
  result (terminal_block cur entry) = Ret tt.
Proof. destruct entry. unfold terminal_block. stamp. Qed.

Lemma wind_block_returns w : result (wind_block cur w) = Ret tt.
Proof. unfold wind_block. stamp. Qed.

Lemma aqi_block_returns a : result (aqi_block cur a) = Ret tt.
Proof. unfold aqi_block. stamp. Qed.

Lemma congestion_block_returns th v :
  result (congestion_block th cur v) = Ret tt.
Proof. unfold congestion_block. stamp. Qed.

Lemma esg_block_returns th :
  is_Some (cur !! "esg_score") → result (_check_esg_alerts th cur) = Ret tt.
Proof.
  intros [v Hv]. unfold _check_esg_alerts.
  rewrite (getitem_Some _ _ _ Hv). stamp.
Qed.

Lemma spike_block_returns th trend c :
  Forall (λ d, is_Some (d !! "energy_consumption")) trend →
  result (spike_block th cur trend c) = Ret tt.
Proof.
  intros H. apply Forall_is_Some_Forall2 in H as [cs Hcs].
  unfold spike_block.
  rewrite (mapM_getitem _ _ (py_but_last cs))
    by (apply py_but_last_Forall2, Hcs).
  stamp.
Qed.

Lemma vessel_trend_block_returns trend v :
  Forall (λ d, is_Some (d !! "vessel_count")) trend →
  result (vessel_trend_block cur trend v) = Ret tt.
Proof.
  intros H. apply Forall_is_Some_Forall2 in H as [vs Hvs].
  unfold vessel_trend_block.
  rewrite (mapM_getitem _ _ (py_last_n 4 vs))
    by (apply py_last_n_Forall2, Hvs).
  stamp.
Qed.

Lemma carbon_trend_block_returns trend es :
  Forall2 (λ d e, d !! "carbon_emission" = Some e) trend es →
  Forall (λ e, ¬ e == 0) es →
  result (carbon_trend_block cur trend) = Ret tt.
Proof.
  intros Hes Hnz. unfold carbon_trend_block.
  destruct (Nat.leb_spec 3 (length trend)) as [Hn|Hn]; [|reflexivity].
  rewrite (mapM_getitem _ _ (py_last_n 3 es))
    by (apply py_last_n_Forall2, Hes).
  rewrite ret_bind.
  destruct (list_of_length_3 (py_last_n 3 es)) as (a & b & c & Hl).
  { rewrite py_last_n_length, <- (Forall2_length _ _ _ Hes). lia. }
  rewrite Hl.
  destruct (strictly_increasing [a; b; c]); [|reflexivity].
  rewrite index_last_3, index_first, !ret_bind.
  assert (Ha : ¬ a == 0).
  { assert (Hin : Forall (λ e, ¬ e == 0) (py_last_n 3 es))
      by (apply Forall_drop, Hnz).
    rewrite Hl in Hin. apply Forall_cons_1 in Hin as [Ha _]. exact Ha. }
  rewrite (py_div_nonzero _ _ Ha). stamp.
Qed.

Lemma for_each_terminals_returns entries :
  result (for_each entries (terminal_block cur)) = Ret tt.
Proof.
  induction entries as [|x l IH]; simpl; [reflexivity|].
  rewrite result_bind, terminal_block_returns. exact IH.
Qed.
End stamped_snapshot.

(** Every snapshot that carries the keys of the contract is evaluated to
    the end, whatever the values under the keys. *)
Lemma run_checks_returns th now (cur : dict) trend es :
  complete_snapshot cur → complete_history trend es →
  result (run_checks th now cur trend) = Ret tt.
Proof.
  intros [[ts Hts] Hall] (Hes & Hnz & Hrest).
  assert (Hcons : Forall (λ d, is_Some (d !! "energy_consumption")) trend)
    by (eapply Forall_impl; [exact Hrest|]; intros ? [? _]; assumption).
  assert (Hves : Forall (λ d, is_Some (d !! "vessel_count")) trend)
    by (eapply Forall_impl; [exact Hrest|]; intros ? [_ ?]; assumption).
  unfold required_fields in Hall.
  repeat (apply Forall_cons_1 in Hall as [[? ?] Hall]).
  unfold run_checks, _check_carbon_emission_alerts, _check_energy_alerts,
    _check_equipment_alerts, _check_environmental_alerts,
    _check_operational_alerts.
  repeat first
    [ match goal with
      | H : _ !! _ = Some _ |- _ => rewrite (getitem_Some _ _ _ H)
      end
    | rewrite ret_bind
    | rewrite result_bind
    | rewrite (carbon_level_block_returns cur ts Hts)
    | rewrite (carbon_trend_block_returns cur ts Hts _ _ Hes Hnz)
    | rewrite (efficiency_block_returns cur ts Hts)
    | rewrite (spike_block_returns cur ts Hts _ _ _ Hcons)
    | rewrite (renewable_block_returns cur ts Hts)
    | rewrite (for_each_terminals_returns cur ts Hts)
    | rewrite (wind_block_returns cur ts Hts)
    | rewrite (aqi_block_returns cur ts Hts)
    | rewrite (congestion_block_returns cur ts Hts)
    | rewrite (vessel_trend_block_returns cur ts Hts _ _ Hves)
    | rewrite (esg_block_returns cur ts Hts) by eauto
    | rewrite (predictive_returns _ _ _ _ Hes) ].
  reflexivity.
Qed.



(** ** How many alerts a cycle appends *)

Lemma bind_length {A B} (n1 n2 : nat) (m : M A) (f : A → M B) :
  (length (emitted m) ≤ n1)%nat →
  (∀ a, (length (emitted (f a)) ≤ n2)%nat) →
  (length (emitted (m ≫= f)) ≤ n1 + n2)%nat.
Proof.
  intros H1 H2. rewrite emitted_bind, length_app.
  destruct (result m) as [a|e]; [specialize (H2 a)|simpl]; lia.
Qed.

Lemma bind_silent {A B} (n : nat) (m : M A) (f : A → M B) :
  emitted m = [] →
  (∀ a, (length (emitted (f a)) ≤ n)%nat) →
  (length (emitted (m ≫= f)) ≤ n)%nat.
Proof.
  intros H1 H2. apply (bind_length 0 n); [rewrite H1; simpl; lia|exact H2].
Qed.

Lemma index_emitted (l : list Q) (i : Z) : emitted (index l i) = [].
Proof.
  unfold index. destruct (_ <? 0)%Z; [reflexivity|].
  destruct (l !! _); reflexivity.
Qed.

Lemma py_div_emitted (a b : Q) : emitted (py_div a b) = [].
Proof. unfold py_div. destruct (Qeq_bool b 0); reflexivity. Qed.

Lemma stamped_length (cur : dict) (a : Q → Alert) :
  (length (emitted (getitem cur "timestamp" ≫= λ ts, append (a ts))) ≤ 1)%nat.
Proof.
  apply bind_silent; [apply getitem_emitted|]. intros ts. simpl. lia.
Qed.


(** The reads and the arithmetic append nothing. *)
Create HintDb silent.
#[export] Hint Resolve mapM_getitem_emitted getitem_emitted index_emitted
  py_div_emitted : silent.

Ltac at_most_one :=
  repeat first
    [ apply stamped_length
    | apply bind_silent; [ solve [auto with silent] | intros ]
    | match goal with
      | |- context [if ?c then _ else _] => destruct c
      end
    | (simpl; lia) ].

Lemma carbon_level_block_length th cur e :
  (length (emitted (carbon_level_block th cur e)) ≤ 1)%nat.
Proof. unfold carbon_level_block. at_most_one. Qed.

Lemma carbon_trend_block_length cur trend :
  (length (emitted (carbon_trend_block cur trend)) ≤ 1)%nat.
Proof. unfold carbon_trend_block. at_most_one. Qed.

Lemma efficiency_block_length th cur e :
  (length (emitted (efficiency_block th cur e)) ≤ 1)%nat.
Proof. unfold efficiency_block. at_most_one. Qed.

Lemma spike_block_length th cur trend c :
  (length (emitted (spike_block th cur trend c)) ≤ 1)%nat.
Proof. unfold spike_block. at_most_one. Qed.

Lemma renewable_block_length th cur r :
  (length (emitted (renewable_block th cur r)) ≤ 1)%nat.
Proof. unfold renewable_block. at_most_one. Qed.

Lemma terminal_block_length cur entry :
  (length (emitted (terminal_block cur entry)) ≤ 1)%nat.
Proof. destruct entry. unfold terminal_block. at_most_one. Qed.

Lemma wind_block_length cur w :
  (length (emitted (wind_block cur w)) ≤ 1)%nat.
Proof. unfold wind_block. at_most_one. Qed.

Lemma aqi_block_length cur a :
  (length (emitted (aqi_block cur a)) ≤ 1)%nat.
Proof. unfold aqi_block. at_most_one. Qed.

Lemma congestion_block_length th cur v :
  (length (emitted (congestion_block th cur v)) ≤ 1)%nat.
Proof. unfold congestion_block. at_most_one. Qed.

Lemma vessel_trend_block_length cur trend v :
  (length (emitted (vessel_trend_block cur trend v)) ≤ 1)%nat.
Proof. unfold vessel_trend_block. at_most_one. Qed.

Lemma esg_length th cur :
  (length (emitted (_check_esg_alerts th cur)) ≤ 1)%nat.
Proof. unfold _check_esg_alerts. at_most_one. Qed.

Lemma predictive_length th now trend :
  (length (emitted (_check_predictive_alerts th now trend)) ≤ 1)%nat.
Proof. unfold _check_predictive_alerts. at_most_one. Qed.

Lemma carbon_length th cur trend :
  (length (emitted (_check_carbon_emission_alerts th cur trend)) ≤ 2)%nat.
Proof.
  unfold _check_carbon_emission_alerts.
  apply bind_silent; [auto with silent|]. intros e.
  apply (bind_length 1 1); [apply carbon_level_block_length|].
  intros _. apply carbon_trend_block_length.
Qed.

Lemma energy_length th cur trend :
  (length (emitted (_check_energy_alerts th cur trend)) ≤ 3)%nat.
Proof.
  unfold _check_energy_alerts.
  do 3 (apply bind_silent; [auto with silent|]; intros ?).
  apply (bind_length 1 2); [apply efficiency_block_length|]. intros _.
  apply (bind_length 1 1); [apply spike_block_length|]. intros _.
  apply renewable_block_length.
Qed.

Lemma equipment_length cur trend :
  (length (emitted (_check_equipment_alerts cur trend)) ≤ 3)%nat.
Proof.
  unfold _check_equipment_alerts.
  do 3 (apply bind_silent; [auto with silent|]; intros ?).
  unfold for_each. cbn [foldr].
  apply (bind_length 1 2); [apply terminal_block_length|]. intros _.
  apply (bind_length 1 1); [apply terminal_block_length|]. intros _.
  apply (bind_length 1 0); [apply terminal_block_length|]. intros _.
  simpl. lia.
Qed.

Lemma environmental_length cur :
  (length (emitted (_check_environmental_alerts cur)) ≤ 2)%nat.
Proof.
  unfold _check_environmental_alerts.
  do 2 (apply bind_silent; [auto with silent|]; intros ?).
  apply (bind_length 1 1); [apply wind_block_length|]. intros _.
  apply aqi_block_length.
Qed.

Lemma operational_length th cur trend :
  (length (emitted (_check_operational_alerts th cur trend)) ≤ 2)%nat.
Proof.
  unfold _check_operational_alerts.
  apply bind_silent; [auto with silent|]. intros v.
  apply (bind_length 1 1); [apply congestion_block_length|]. intros _.
  apply vessel_trend_block_length.
Qed.

(** A cycle appends at most 14 alerts. *)
Lemma run_checks_length th now cur trend :
  (length (emitted (run_checks th now cur trend)) ≤ 14)%nat.
Proof.
  unfold run_checks.
  apply (bind_length 2 12); [apply carbon_length|]. intros _.
  apply (bind_length 3 9); [apply energy_length|]. intros _.
  apply (bind_length 3 6); [apply equipment_length|]. intros _.
  apply (bind_length 2 4); [apply environmental_length|]. intros _.
  apply (bind_length 2 2); [apply operational_length|]. intros _.
  apply (bind_length 1 1); [apply esg_length|]. intros _.
  apply predictive_length.
Qed.

(** ** The bounded alert history *)

Lemma update_history_last_50 (self : AlertEngine) :
  alert_history (_update_alert_history self) =
  py_last_n 50 (alert_history self ++ active_alerts self).
Proof.
  unfold _update_alert_history; simpl.
  destruct (Nat.ltb_spec 50 (length (alert_history self ++ active_alerts self)))
    as [H|H]; [reflexivity|].
  unfold py_last_n. replace (_ - 50)%nat with 0%nat by lia. reflexivity.
Qed.

Lemma suffix_py_last_n {A} (n : nat) (l k : list A) :
  (length k ≤ n)%nat → k `suffix_of` py_last_n n (l ++ k).
Proof.
  intros Hk. unfold py_last_n.
  rewrite drop_app_le by (rewrite length_app; lia).
  apply suffix_app_r. reflexivity.
Qed.

Lemma analyze_returns_inv th now cur trend self active self' :
  analyze_and_generate_alerts th now cur trend self = (Ret active, self') →
  result (run_checks th now cur trend) = Ret tt ∧
  active = emitted (run_checks th now cur trend) ∧
  active_alerts self' = active ∧
  alert_history self' = py_last_n 50 (alert_history self ++ active).
Proof.
  unfold analyze_and_generate_alerts.
  destruct (result (run_checks th now cur trend)) as [[]|e] eqn:E;
    [|discriminate].
  intros [= <- <-]. rewrite update_history_last_50. auto.
Qed.

Lemma analyze_history_bound th now cur trend self :
  (length (alert_history self) ≤ 50)%nat →
  (length (alert_history
             (analyze_and_generate_alerts th now cur trend self).2) ≤ 50)%nat.
Proof.
  intros H. unfold analyze_and_generate_alerts.
  destruct (result (run_checks th now cur trend)); simpl; [|exact H].
  match goal with |- context [if ?c then _ else _] => destruct c eqn:E end.
  - rewrite py_last_n_length. lia.
  - apply Nat.ltb_ge in E. exact E.
Qed.

(** C7: after any number of cycles the alert history holds at most 50
    entries; a cycle that returns appends all its alerts and then keeps the
    last 50 entries, so that what is dropped is the oldest part of the
    history and every alert of the cycle is retained. *)
Theorem alert_history_bounded (self : AlertEngine) :
  reachable self →
  (length (alert_history self) ≤ 50)%nat ∧
  ∀ th now cur trend active self',
    analyze_and_generate_alerts th now cur trend self = (Ret active, self') →
    alert_history self' = py_last_n 50 (alert_history self ++ active) ∧
    alert_history self' `suffix_of` (alert_history self ++ active) ∧
    active `suffix_of` alert_history self' ∧
    length (alert_history self') =
    Nat.min 50 (length (alert_history self) + length active).
Proof.
  intros Hreach. split.
  - induction Hreach as [|th now cur trend self _ IH]; [simpl; lia|].
    apply analyze_history_bound, IH.
  - intros th now cur trend active self' Hrun.
    apply analyze_returns_inv in Hrun as (_ & Hact & _ & Hhist).
    rewrite Hhist. split; [reflexivity|]. split; [apply suffix_drop|]. split.
    + apply suffix_py_last_n. rewrite Hact.
      pose proof (run_checks_length th now cur trend). lia.
    + rewrite py_last_n_length, length_app. reflexivity.
Qed.

(** The bound at the engine reached by one cycle on [corrupt_snapshot]. *)
Lemma alert_history_bounded_witness :
  (length (alert_history
     (analyze_and_generate_alerts default_thresholds 0 corrupt_snapshot []
        init).2) ≤ 50)%nat.
Proof.
  apply (alert_history_bounded
           (analyze_and_generate_alerts default_thresholds 0 corrupt_snapshot
              [] init).2).
  apply reachable_cycle, reachable_init.
Defined.

(** ** Statistics *)

Lemma statistics_loop_count_by (history : list Alert) :
  statistics_loop history =
  (count_by type history, count_by category history, count_by priority history).
Proof.
  unfold statistics_loop, count_by.
  generalize (∅ : gmap string nat) at 1 4.
  generalize (∅ : gmap string nat) at 1 3.
  generalize (∅ : gmap string nat).
  induction history as [|a h IH]; intros d1 d2 d3; simpl; [reflexivity|].
  apply IH.
Qed.

Lemma get_alert_statistics_nonempty (self : AlertEngine) :
  alert_history self ≠ [] →
  get_alert_statistics self = grouped_statistics (alert_history self).
Proof.
  intros H. unfold get_alert_statistics.
  rewrite statistics_loop_count_by.
  destruct (alert_history self); [contradiction|reflexivity].
Qed.

Lemma sum_counts_bump (k : string) (d : gmap string nat) :
  sum_counts (bump k d) = S (sum_counts d).
Proof.
  unfold sum_counts, bump.
  destruct (d !! k) as [v|] eqn:E; simpl.
  - rewrite <- insert_delete_eq.
    rewrite map_fold_insert_L; [|intros; lia|apply lookup_delete_eq].
    rewrite (map_fold_delete_L _ _ k v d); [lia|intros; lia|exact E].
  - rewrite map_fold_insert_L; [lia|intros; lia|exact E].
Qed.

Lemma sum_counts_foldl (field : Alert → string) (h : list Alert)
    (d : gmap string nat) :
  sum_counts (foldl (λ d a, bump (field a) d) d h) = (sum_counts d + length h)%nat.
Proof.
  revert d. induction h as [|a h IH]; intros d; simpl; [lia|].
  rewrite IH, sum_counts_bump. lia.
Qed.

Lemma sum_counts_count_by (field : Alert → string) (h : list Alert) :
  sum_counts (count_by field h) = length h.
Proof.
  unfold count_by. rewrite sum_counts_foldl.
  unfold sum_counts. rewrite map_fold_empty. reflexivity.
Qed.

Lemma lookup_foldl_bump (field : Alert → string) (k : string)
    (h : list Alert) (d : gmap string nat) :
  foldl (λ d a, bump (field a) d) d h !! k =
  match occurrences field k h with
  | O => d !! k
  | S n => Some (default 0%nat (d !! k) + S n)%nat
  end.
Proof.
  revert d. induction h as [|a h IH]; intros d; [reflexivity|].
  simpl foldl. rewrite IH. unfold occurrences.
  destruct (decide (field a = k)) as [Heq|Hne].
  - rewrite filter_cons_True by exact Heq. simpl length.
    unfold bump. rewrite Heq, lookup_insert_eq. simpl.
    destruct (length _); f_equal; lia.
  - rewrite filter_cons_False by exact Hne.
    unfold bump. rewrite lookup_insert_ne by exact Hne. reflexivity.
Qed.

Lemma lookup_count_by (field : Alert → string) (k : string) (h : list Alert) :
  count_by field h !! k =
  match occurrences field k h with O => None | S n => Some (S n) end.
Proof.
  unfold count_by. rewrite lookup_foldl_bump, lookup_empty. reflexivity.
Qed.

(** The statistics of a fresh engine: the empty dictionary has no [total]
    entry and no [by_...] entries, so that it is not the structure with
    [total = 0] and three empty aggregates. *)
Lemma statistics_empty_counterexample :
  alert_history init = [] ∧
  get_alert_statistics init !! "total" = None ∧
  get_alert_statistics init !! "by_type" = None ∧
  get_alert_statistics init !! "by_category" = None ∧
  get_alert_statistics init !! "by_priority" = None ∧
  get_alert_statistics init ≠
    <["by_priority" := Counts ∅]>
      (<["by_category" := Counts ∅]>
         (<["by_type" := Counts ∅]> (<["total" := Count 0]> ∅))).
Proof.
  repeat split.
  intros H. apply (f_equal (λ m, m !! "total")) in H. discriminate H.
Qed.

(** C8, as the code has it: over an empty history the statistics are the
    empty dictionary, which has none of the four entries; over a non-empty
    history they hold the length of the history under [total] and, under
    each [by_...] key, the number of alerts per value of the field, with an
    entry exactly for the values that occur.  The computation is a total
    function: it has no exceptional outcome. *)
Theorem statistics_empty_and_grouped (self : AlertEngine) :
  (alert_history self = [] → get_alert_statistics self = ∅) ∧
  (alert_history self ≠ [] →
     get_alert_statistics self = grouped_statistics (alert_history self) ∧
     get_alert_statistics self !! "total"
     = Some (Count (length (alert_history self))) ∧
     get_alert_statistics self !! "by_type"
     = Some (Counts (count_by type (alert_history self))) ∧
     get_alert_statistics self !! "by_category"
     = Some (Counts (count_by category (alert_history self))) ∧
     get_alert_statistics self !! "by_priority"
     = Some (Counts (count_by priority (alert_history self)))) ∧
  (∀ field k,
     count_by field (alert_history self) !! k =
     match occurrences field k (alert_history self) with
     | O => None
     | S n => Some (S n)
     end).
Proof.
  split; [|split].
  - intros H. unfold get_alert_statistics. rewrite H. reflexivity.
  - intros H. rewrite (get_alert_statistics_nonempty self H).
    repeat split.
  - intros field k. apply lookup_count_by.
Qed.

(** C10: over a non-empty history, [total] is the length of the history and
    the counts under each of [by_type], [by_category] and [by_priority] sum
    to it. *)
Theorem statistics_consistent (self : AlertEngine) :
  alert_history self ≠ [] →
  ∃ total by_type by_category by_priority,
    get_alert_statistics self !! "total" = Some (Count total) ∧
    get_alert_statistics self !! "by_type" = Some (Counts by_type) ∧
    get_alert_statistics self !! "by_category" = Some (Counts by_category) ∧
    get_alert_statistics self !! "by_priority" = Some (Counts by_priority) ∧
    total = length (alert_history self) ∧
    sum_counts by_type = total ∧
    sum_counts by_category = total ∧
    sum_counts by_priority = total.
Proof.
  intros H. rewrite (get_alert_statistics_nonempty self H).
  eexists _, _, _, _.
  split; [reflexivity|]. split; [reflexivity|].
  split; [reflexivity|]. split; [reflexivity|].
  split; [reflexivity|].
  rewrite !sum_counts_count_by. auto.
Qed.

(** The statistics of [used_engine], whose history is not empty. *)
Lemma statistics_consistent_witness :
  ∃ total by_type by_category by_priority,
    get_alert_statistics used_engine !! "total" = Some (Count total) ∧
    get_alert_statistics used_engine !! "by_type" = Some (Counts by_type) ∧
    get_alert_statistics used_engine !! "by_category"
    = Some (Counts by_category) ∧
    get_alert_statistics used_engine !! "by_priority"
    = Some (Counts by_priority) ∧
    total = length (alert_history used_engine) ∧
    sum_counts by_type = total ∧
    sum_counts by_category = total ∧
    sum_counts by_priority = total.
Proof. apply (statistics_consistent used_engine). discriminate. Defined.

(** Both cases of the statistics: the fresh engine and [used_engine]. *)
Lemma statistics_empty_and_grouped_witness :
  get_alert_statistics init = ∅ ∧
  get_alert_statistics used_engine !! "total" = Some (Count 1).
Proof.
  split.
  - apply (statistics_empty_and_grouped init). reflexivity.
  - apply (statistics_empty_and_grouped used_engine). discriminate.
Defined.

(** ** Evaluating twice on the same source *)

Lemma predictive_now_irrelevant th now1 now2 trend :
  result (_check_predictive_alerts th now1 trend) =
  result (_check_predictive_alerts th now2 trend) ∧
  erase_timestamp <$> emitted (_check_predictive_alerts th now1 trend) =
  erase_timestamp <$> emitted (_check_predictive_alerts th now2 trend).
Proof.
  unfold _check_predictive_alerts.
  destruct (6 <=? length trend)%nat; [|split; reflexivity].
  rewrite !result_bind, !emitted_bind.
  destruct (result (mapM _ trend)) as [es|e]; [|split; reflexivity].
  destruct (Qltb _ _); split; try reflexivity.
  rewrite !fmap_app. reflexivity.
Qed.

Lemma run_checks_now_irrelevant th now1 now2 cur trend :
  result (run_checks th now1 cur trend) = result (run_checks th now2 cur trend) ∧
  erase_timestamp <$> emitted (run_checks th now1 cur trend) =
  erase_timestamp <$> emitted (run_checks th now2 cur trend).
Proof.
  destruct (predictive_now_irrelevant th now1 now2 trend) as [Hr He].
  unfold run_checks. rewrite !emitted_bind, !result_bind.
  destruct (result (_check_carbon_emission_alerts th cur trend));
    [|split; reflexivity].
  destruct (result (_check_energy_alerts th cur trend));
    [|split; reflexivity].
  destruct (result (_check_equipment_alerts cur trend));
    [|split; reflexivity].
  destruct (result (_check_environmental_alerts cur));
    [|split; reflexivity].
  destruct (result (_check_operational_alerts th cur trend));
    [|split; reflexivity].
  destruct (result (_check_esg_alerts th cur)); [|split; reflexivity].
  split; [exact Hr|]. rewrite !fmap_app, He. reflexivity.
Qed.

(** From an engine with a history, the second of two identical calls does
    not double the length of the history: 1 entry before, 2 after the first
    call, 3 after the second. *)
Lemma evaluate_twice_counterexample :
  let evaluate :=
    analyze_and_generate_alerts default_thresholds 0 corrupt_snapshot [] in
  length (alert_history used_engine) = 1%nat ∧
  (evaluate used_engine).1 = (evaluate (evaluate used_engine).2).1 ∧
  length (alert_history (evaluate used_engine).2) = 2%nat ∧
  length (alert_history (evaluate (evaluate used_engine).2).2) = 3%nat.
Proof. cbv zeta. repeat split. Qed.

(** C9, as the code has it: when a call returns, a second call on the same
    thresholds, snapshot and history returns a list with the same alerts up
    to their timestamps; when the alert history was empty before the first
    call, the history after the second call is twice as long as after the
    first. *)
Theorem evaluate_twice th now1 now2 (cur : dict) (trend : list dict)
    (self self1 : AlertEngine) (active1 : list Alert) :
  analyze_and_generate_alerts th now1 cur trend self = (Ret active1, self1) →
  ∃ active2 self2,
    analyze_and_generate_alerts th now2 cur trend self1 = (Ret active2, self2) ∧
    erase_timestamp <$> active2 = erase_timestamp <$> active1 ∧
    (now1 = now2 → active2 = active1) ∧
    (alert_history self = [] →
       length (alert_history self1) = length active1 ∧
       length (alert_history self2) = (2 * length (alert_history self1))%nat).
Proof.
  intros H1.
  apply analyze_returns_inv in H1 as (Hr1 & Ha1 & _ & Hh1).
  destruct (run_checks_now_irrelevant th now1 now2 cur trend) as [Hr He].
  rewrite Hr1 in Hr.
  pose proof (run_checks_length th now1 cur trend) as Hlen1.
  pose proof (run_checks_length th now2 cur trend) as Hlen2.
  exists (emitted (run_checks th now2 cur trend)).
  eexists. split; [|split; [|split]].
  - unfold analyze_and_generate_alerts. rewrite <- Hr. reflexivity.
  - rewrite Ha1. symmetry. exact He.
  - intros ->. rewrite Ha1. reflexivity.
  - intros Hempty. rewrite update_history_last_50. simpl.
    rewrite Hh1, Hempty. simpl.
    assert (Hk : length (emitted (run_checks th now2 cur trend))
                 = length active1).
    { rewrite Ha1, <- (length_fmap erase_timestamp), <- He, length_fmap.
      reflexivity. }
    rewrite !py_last_n_length, length_app, py_last_n_length.
    rewrite Hk. rewrite Ha1. lia.
Qed.

(** Two calls on [corrupt_snapshot] from the fresh engine. *)
Lemma evaluate_twice_witness :
  ∃ active2 self2,
    analyze_and_generate_alerts default_thresholds 1 corrupt_snapshot []
      used_engine = (Ret active2, self2) ∧
    erase_timestamp <$> active2 = erase_timestamp <$> active_alerts used_engine ∧
    (0 = 1 → active2 = active_alerts used_engine) ∧
    (alert_history init = [] →
       length (alert_history used_engine) = length (active_alerts used_engine) ∧
       length (alert_history self2)
       = (2 * length (alert_history used_engine))%nat).
Proof.
  apply (evaluate_twice default_thresholds 0 1 corrupt_snapshot [] init
           used_engine (active_alerts used_engine)).
  reflexivity.
Defined.

(** ** The theorems at concrete inputs *)




(** A zero mean with a zero consumption, and a zero baseline under a window
    that does not rise. *)
Lemma degenerate_arithmetic_behaviour_witness :
  spike_block default_thresholds quiet_snapshot (consumption_history [0; 0]) 0
  = ([], Ret tt) ∧
  carbon_trend_block quiet_snapshot (emission_history [0; 5; 3]) = ([], Ret tt).
Proof.
  split.
  - apply (degenerate_arithmetic_behaviour default_thresholds quiet_snapshot
             (consumption_history [0; 0]) [0; 0] [] 0 9).
    + reflexivity.
    + apply consumption_history_fields.
    + simpl. lia.
    + reflexivity.
    + discriminate.
  - apply (degenerate_arithmetic_behaviour default_thresholds quiet_snapshot
             (emission_history [0; 5; 3]) [] [0; 5; 3] 0 9)
      with (a := 0) (b := 5) (c := 3).
    + reflexivity.
    + apply emission_history_fields.
    + reflexivity.
    + reflexivity.
    + intros [_ H]. discriminate H.
Defined.


(** * Further properties of the engine *)

(** ** The order of the alerts of a cycle *)

Lemma bind_categories {A B} (k1 k2 : list string) (m : M A) (f : A → M B) :
  category <$> emitted m `sublist_of` k1 →
  (∀ a, category <$> emitted (f a) `sublist_of` k2) →
  category <$> emitted (m ≫= f) `sublist_of` k1 ++ k2.
Proof.
  intros H1 H2. rewrite emitted_bind, fmap_app.
  apply sublist_app; [exact H1|].
  destruct (result m) as [a|e]; [apply H2|apply sublist_nil_l].
Qed.

Lemma bind_silent_categories {A B} (k : list string) (m : M A) (f : A → M B) :
  emitted m = [] →
  (∀ a, category <$> emitted (f a) `sublist_of` k) →
  category <$> emitted (m ≫= f) `sublist_of` k.
Proof.
  intros H1 H2. apply (bind_categories [] k); [|exact H2].
  rewrite H1. apply sublist_nil_l.
Qed.

Lemma stamped_category (cur : dict) (a : Q → Alert) (c : string) :
  (∀ ts, category (a ts) = c) →
  category <$> emitted (getitem cur "timestamp" ≫= λ ts, append (a ts))
  `sublist_of` [c].
Proof.
  intros Hc. apply bind_silent_categories; [apply getitem_emitted|].
  intros ts. simpl. rewrite Hc. reflexivity.
Qed.

Ltac one_category :=
  repeat first
    [ apply stamped_category; intros; reflexivity
    | apply bind_silent_categories; [ solve [auto with silent] | intros ]
    | match goal with
      | |- context [if ?c then _ else _] => destruct c
      end
    | apply sublist_nil_l
    | reflexivity ].

Lemma carbon_level_block_category th cur e :
  category <$> emitted (carbon_level_block th cur e) `sublist_of` ["emission"].
Proof. unfold carbon_level_block. one_category. Qed.

Lemma carbon_trend_block_category cur trend :
  category <$> emitted (carbon_trend_block cur trend) `sublist_of` ["trend"].
Proof. unfold carbon_trend_block. one_category. Qed.

Lemma efficiency_block_category th cur e :
  category <$> emitted (efficiency_block th cur e) `sublist_of` ["efficiency"].
Proof. unfold efficiency_block. one_category. Qed.

Lemma spike_block_category th cur trend c :
  category <$> emitted (spike_block th cur trend c) `sublist_of` ["consumption"].
Proof. unfold spike_block. one_category. Qed.

Lemma renewable_block_category th cur r :
  category <$> emitted (renewable_block th cur r) `sublist_of` ["renewable"].
Proof. unfold renewable_block. one_category. Qed.

Lemma terminal_block_category cur entry :
  category <$> emitted (terminal_block cur entry) `sublist_of` ["equipment"].
Proof. destruct entry. unfold terminal_block. one_category. Qed.

Lemma wind_block_category cur w :
  category <$> emitted (wind_block cur w) `sublist_of` ["weather"].
Proof. unfold wind_block. one_category. Qed.

Lemma aqi_block_category cur a :
  category <$> emitted (aqi_block cur a) `sublist_of` ["environment"].
Proof. unfold aqi_block. one_category. Qed.

Lemma congestion_block_category th cur v :
  category <$> emitted (congestion_block th cur v) `sublist_of` ["operation"].
Proof. unfold congestion_block. one_category. Qed.

Lemma vessel_trend_block_category cur trend v :
  category <$> emitted (vessel_trend_block cur trend v) `sublist_of` ["trend"].
Proof. unfold vessel_trend_block. one_category. Qed.

Lemma esg_category th cur :
  category <$> emitted (_check_esg_alerts th cur) `sublist_of` ["esg"].
Proof. unfold _check_esg_alerts. one_category. Qed.

Lemma predictive_category th now trend :
  category <$> emitted (_check_predictive_alerts th now trend)
  `sublist_of` ["prediction"].
Proof. unfold _check_predictive_alerts. one_category. Qed.

Lemma run_checks_categories th now cur trend :
  category <$> emitted (run_checks th now cur trend) `sublist_of` rule_categories.
Proof.
  unfold run_checks, _check_carbon_emission_alerts, _check_energy_alerts,
    _check_equipment_alerts, _check_environmental_alerts,
    _check_operational_alerts, rule_categories, for_each.
  cbn [foldr].
  apply (bind_categories ["emission"; "trend"]); [|intros _].
  { apply bind_silent_categories; [auto with silent|]. intros e.
    apply (bind_categories ["emission"] ["trend"]);
      [apply carbon_level_block_category|].
    intros _. apply carbon_trend_block_category. }
  apply (bind_categories ["efficiency"; "consumption"; "renewable"]);
    [|intros _].
  { do 3 (apply bind_silent_categories; [auto with silent|]; intros ?).
    apply (bind_categories ["efficiency"] ["consumption"; "renewable"]);
      [apply efficiency_block_category|]. intros _.
    apply (bind_categories ["consumption"] ["renewable"]);
      [apply spike_block_category|]. intros _.
    apply renewable_block_category. }
  apply (bind_categories ["equipment"; "equipment"; "equipment"]);
    [|intros _].
  { do 3 (apply bind_silent_categories; [auto with silent|]; intros ?).
    apply (bind_categories ["equipment"] ["equipment"; "equipment"]);
      [apply terminal_block_category|]. intros _.
    apply (bind_categories ["equipment"] ["equipment"]);
      [apply terminal_block_category|]. intros _.
    apply (bind_categories ["equipment"] []);
      [apply terminal_block_category|]. intros _.
    apply sublist_nil_l. }
  apply (bind_categories ["weather"; "environment"]); [|intros _].
  { do 2 (apply bind_silent_categories; [auto with silent|]; intros ?).
    apply (bind_categories ["weather"] ["environment"]);
      [apply wind_block_category|]. intros _.
    apply aqi_block_category. }
  apply (bind_categories ["operation"; "trend"]); [|intros _].
  { apply bind_silent_categories; [auto with silent|]. intros v.
    apply (bind_categories ["operation"] ["trend"]);
      [apply congestion_block_category|]. intros _.
    apply vessel_trend_block_category. }
  apply (bind_categories ["esg"] ["prediction"]); [apply esg_category|].
  intros _. apply predictive_category.
Qed.

(** X1: the alerts that a cycle returns come in the order of the checks:
    their categories form a subsequence of the fourteen categories of
    [rule_categories], so that a cycle returns at most 14 alerts. *)
Theorem active_alerts_in_rule_order th now (cur : dict) (trend : list dict)
    (self self' : AlertEngine) (active : list Alert) :
  analyze_and_generate_alerts th now cur trend self = (Ret active, self') →
  category <$> active `sublist_of` rule_categories ∧
  (length active ≤ 14)%nat.
Proof.
  intros H. apply analyze_returns_inv in H as (_ & -> & _).
  pose proof (run_checks_categories th now cur trend) as Hs.
  split; [exact Hs|].
  apply sublist_length in Hs. rewrite length_fmap in Hs. exact Hs.
Qed.

(** On [alarming_snapshot] and [alarming_history] all the fourteen alerts
    are returned. *)
Lemma active_alerts_in_rule_order_witness :
  category
  <$> emitted (run_checks default_thresholds 0 alarming_snapshot
                 alarming_history)
  = rule_categories ∧
  (length (emitted (run_checks default_thresholds 0 alarming_snapshot
                      alarming_history)) ≤ 14)%nat.
Proof.
  split; [vm_compute; reflexivity|].
  eapply (active_alerts_in_rule_order default_thresholds 0 alarming_snapshot
            alarming_history init).
  vm_compute. reflexivity.
Defined.

(** ** The vocabulary of the alerts *)

Lemma bind_Forall {A B} (P : Alert → Prop) (m : M A) (f : A → M B) :
  Forall P (emitted m) → (∀ a, Forall P (emitted (f a))) →
  Forall P (emitted (m ≫= f)).
Proof.
  intros H1 H2. rewrite emitted_bind. apply Forall_app. split; [exact H1|].
  destruct (result m) as [a|e]; [apply H2|constructor].
Qed.

Lemma bind_silent_Forall {A B} (P : Alert → Prop) (m : M A) (f : A → M B) :
  emitted m = [] → (∀ a, Forall P (emitted (f a))) →
  Forall P (emitted (m ≫= f)).
Proof. intros H1 H2. apply bind_Forall; [rewrite H1; constructor|exact H2]. Qed.

Lemma well_formed_tags (ty pr ti : string) (me : list piece) (re : string)
    (ts : Q) (ca : string) :
  In ty ["error"; "warning"; "info"] →
  In pr ["critical"; "high"; "medium"; "low"] →
  In ca ["emission"; "trend"; "efficiency"; "consumption"; "renewable";
         "equipment"; "weather"; "environment"; "operation"; "esg";
         "prediction"] →
  well_formed_alert (mkAlert ty pr ti me re ts ca).
Proof. intros. split; [|split]; assumption. Qed.

Lemma stamped_alert (cur : dict) (a : Q → Alert) :
  (∀ ts, well_formed_alert (a ts) ∧ timestamp (a ts) = ts) →
  Forall (stamped_by cur)
    (emitted (getitem cur "timestamp" ≫= λ ts, append (a ts))).
Proof.
  intros Ha. unfold getitem.
  destruct (cur !! "timestamp") as [ts|] eqn:E; [|constructor].
  rewrite ret_bind. constructor; [|constructor].
  destruct (Ha ts) as [Hw Ht]. split; [exact Hw|]. intros _.
  rewrite Ht. exact E.
Qed.

Ltac tags :=
  intros; split; [apply well_formed_tags; simpl; tauto|reflexivity].

Ltac all_stamped :=
  repeat first
    [ apply stamped_alert; tags
    | apply bind_silent_Forall; [ solve [auto with silent] | intros ]
    | match goal with
      | |- context [if ?c then _ else _] => destruct c
      end
    | apply Forall_nil_2 ].

Lemma carbon_level_block_stamped th cur e :
  Forall (stamped_by cur) (emitted (carbon_level_block th cur e)).
Proof. unfold carbon_level_block. all_stamped. Qed.

Lemma carbon_trend_block_stamped cur trend :
  Forall (stamped_by cur) (emitted (carbon_trend_block cur trend)).
Proof. unfold carbon_trend_block. all_stamped. Qed.

Lemma efficiency_block_stamped th cur e :
  Forall (stamped_by cur) (emitted (efficiency_block th cur e)).
Proof. unfold efficiency_block. all_stamped. Qed.

Lemma spike_block_stamped th cur trend c :
  Forall (stamped_by cur) (emitted (spike_block th cur trend c)).
Proof. unfold spike_block. all_stamped. Qed.

Lemma renewable_block_stamped th cur r :
  Forall (stamped_by cur) (emitted (renewable_block th cur r)).
Proof. unfold renewable_block. all_stamped. Qed.

Lemma terminal_block_stamped cur entry :
  Forall (stamped_by cur) (emitted (terminal_block cur entry)).
Proof. destruct entry. unfold terminal_block. all_stamped. Qed.

Lemma wind_block_stamped cur w :
  Forall (stamped_by cur) (emitted (wind_block cur w)).
Proof. unfold wind_block. all_stamped. Qed.

Lemma aqi_block_stamped cur a :
  Forall (stamped_by cur) (emitted (aqi_block cur a)).
Proof. unfold aqi_block. all_stamped. Qed.

Lemma congestion_block_stamped th cur v :
  Forall (stamped_by cur) (emitted (congestion_block th cur v)).
Proof. unfold congestion_block. all_stamped. Qed.

Lemma vessel_trend_block_stamped cur trend v :
  Forall (stamped_by cur) (emitted (vessel_trend_block cur trend v)).
Proof. unfold vessel_trend_block. all_stamped. Qed.

Lemma esg_stamped th cur :
  Forall (stamped_by cur) (emitted (_check_esg_alerts th cur)).
Proof. unfold _check_esg_alerts. all_stamped. Qed.

Lemma predictive_stamped th now cur trend :
  Forall (stamped_by cur) (emitted (_check_predictive_alerts th now trend)).
Proof.
  unfold _check_predictive_alerts. all_stamped.
  constructor; [|constructor].
  split; [apply well_formed_tags; simpl; tauto|]. intros H. contradiction H.
  reflexivity.
Qed.

Lemma run_checks_stamped th now cur trend :
  Forall (stamped_by cur) (emitted (run_checks th now cur trend)).
Proof.
  unfold run_checks, _check_carbon_emission_alerts, _check_energy_alerts,
    _check_equipment_alerts, _check_environmental_alerts,
    _check_operational_alerts, for_each.
  cbn [foldr].
  repeat first
    [ apply carbon_level_block_stamped | apply carbon_trend_block_stamped
    | apply efficiency_block_stamped | apply spike_block_stamped
    | apply renewable_block_stamped | apply terminal_block_stamped
    | apply wind_block_stamped | apply aqi_block_stamped
    | apply congestion_block_stamped | apply vessel_trend_block_stamped
    | apply esg_stamped | apply predictive_stamped
    | apply Forall_nil_2
    | apply bind_silent_Forall; [ solve [auto with silent] | intros ]
    | apply bind_Forall; [|intros] ].
Qed.

Lemma reachable_history_well_formed (self : AlertEngine) :
  reachable self → Forall well_formed_alert (alert_history self).
Proof.
  induction 1 as [|th now cur trend self _ IH]; [constructor|].
  unfold analyze_and_generate_alerts.
  destruct (result (run_checks th now cur trend)); [|exact IH].
  cbn [snd]. rewrite update_history_last_50. cbn [active_alerts alert_history].
  apply Forall_drop, Forall_app. split; [exact IH|].
  eapply Forall_impl; [apply run_checks_stamped|].
  intros x [Hw _]. exact Hw.
Qed.

(** X2: every alert that a cycle returns has its type among error, warning
    and info, its priority among critical, high, medium and low and its
    category among the eleven categories, and carries the timestamp of the
    snapshot unless it is the forecast alert; the alert history of the
    engine holds only such alerts. *)
Theorem alerts_well_formed th now (cur : dict) (trend : list dict)
    (self self' : AlertEngine) (active : list Alert) :
  reachable self →
  analyze_and_generate_alerts th now cur trend self = (Ret active, self') →
  Forall well_formed_alert active ∧
  Forall (λ a, category a ≠ "prediction" →
               cur !! "timestamp" = Some (timestamp a)) active ∧
  Forall well_formed_alert (alert_history self').
Proof.
  intros Hreach H.
  assert (Hself' : reachable self').
  { replace self' with (analyze_and_generate_alerts th now cur trend self).2
      by (rewrite H; reflexivity).
    apply reachable_cycle, Hreach. }
  apply analyze_returns_inv in H as (_ & -> & _).
  pose proof (run_checks_stamped th now cur trend) as Hs.
  split; [|split].
  - eapply Forall_impl; [exact Hs|]. intros a [Hw _]. exact Hw.
  - eapply Forall_impl; [exact Hs|]. intros a [_ Ht]. exact Ht.
  - apply reachable_history_well_formed, Hself'.
Qed.

Lemma alerts_well_formed_witness :
  Forall well_formed_alert
    (emitted (run_checks default_thresholds 0 alarming_snapshot
                alarming_history)).
Proof.
  eapply (alerts_well_formed default_thresholds 0 alarming_snapshot
            alarming_history init).
  - apply reachable_init.
  - vm_compute. reflexivity.
Defined.

(** ** A snapshot without a timestamp *)

Lemma bind_emitted_nil {A B} (m : M A) (f : A → M B) :
  emitted m = [] → (∀ a, emitted (f a) = []) → emitted (m ≫= f) = [].
Proof.
  intros H1 H2. rewrite emitted_bind, H1.
  destruct (result m) as [a|e]; [apply H2|reflexivity].
Qed.

Section unstamped_snapshot.
Context (cur : dict).
Hypothesis Hnone : cur !! "timestamp" = None.

Lemma unstamped_alert (a : Q → Alert) :
  emitted (getitem cur "timestamp" ≫= λ ts, append (a ts)) = [].
Proof. rewrite (getitem_None _ _ Hnone). reflexivity. Qed.

Ltac unstamped :=
  repeat first
    [ apply unstamped_alert
    | apply bind_emitted_nil; [ solve [auto with silent] | intros ]
    | match goal with
      | |- context [if ?c then _ else _] => destruct c
      end
    | reflexivity ].

Lemma carbon_unstamped th trend :
  emitted (_check_carbon_emission_alerts th cur trend) = [].
Proof.
  unfold _check_carbon_emission_alerts, carbon_level_block, carbon_trend_block.
  apply bind_emitted_nil; [auto with silent|]. intros e.
  apply bind_emitted_nil; [|intros _]; unstamped.
Qed.

Lemma energy_unstamped th trend :
  emitted (_check_energy_alerts th cur trend) = [].
Proof.
  unfold _check_energy_alerts, efficiency_block, spike_block, renewable_block.
  do 3 (apply bind_emitted_nil; [auto with silent|]; intros ?).
  apply bind_emitted_nil; [|intros _]; [unstamped|].
  apply bind_emitted_nil; [|intros _]; unstamped.
Qed.

Lemma terminal_unstamped entry : emitted (terminal_block cur entry) = [].
Proof. destruct entry. unfold terminal_block. unstamped. Qed.

Lemma equipment_unstamped trend :
  emitted (_check_equipment_alerts cur trend) = [].
Proof.
  unfold _check_equipment_alerts, for_each. cbn [foldr].
  do 3 (apply bind_emitted_nil; [auto with silent|]; intros ?).
  repeat (apply bind_emitted_nil; [apply terminal_unstamped|intros _]).
  reflexivity.
Qed.

Lemma environmental_unstamped : emitted (_check_environmental_alerts cur) = [].
Proof.
  unfold _check_environmental_alerts, wind_block, aqi_block.
  do 2 (apply bind_emitted_nil; [auto with silent|]; intros ?).
  apply bind_emitted_nil; [|intros _]; unstamped.
Qed.

Lemma operational_unstamped th trend :
  emitted (_check_operational_alerts th cur trend) = [].
Proof.
  unfold _check_operational_alerts, congestion_block, vessel_trend_block.
  apply bind_emitted_nil; [auto with silent|]. intros v.
  apply bind_emitted_nil; [|intros _]; unstamped.
Qed.

Lemma esg_unstamped th : emitted (_check_esg_alerts th cur) = [].
Proof. unfold _check_esg_alerts. unstamped. Qed.

Lemma run_checks_unstamped th now trend :
  emitted (run_checks th now cur trend) = [] ∨
  ∃ forecast,
    emitted (run_checks th now cur trend) = [prediction_alert forecast now].
Proof.
  unfold run_checks.
  rewrite !emitted_bind, carbon_unstamped, energy_unstamped,
    equipment_unstamped, environmental_unstamped, operational_unstamped,
    esg_unstamped.
  repeat match goal with
         | |- context [match ?r with Ret _ => _ | Raise _ => _ end] =>
             destruct r; simpl; try (left; reflexivity)
         end.
  unfold _check_predictive_alerts.
  destruct (6 <=? length trend)%nat; [|left; reflexivity].
  rewrite emitted_bind, mapM_getitem_emitted. simpl.
  destruct (result _) as [es|e]; [|left; reflexivity].
  destruct (Qltb _ _); [right; eexists|left]; reflexivity.
Qed.
End unstamped_snapshot.

(** X3: the timestamp of the snapshot is read only when an alert is built:
    on a snapshot without a timestamp a cycle that returns has appended no
    alert of the snapshot or of the trends; it returns the empty list or the
    forecast alert alone. *)
Theorem unstamped_snapshot_only_forecast th now (cur : dict)
    (trend : list dict) (self self' : AlertEngine) (active : list Alert) :
  cur !! "timestamp" = None →
  analyze_and_generate_alerts th now cur trend self = (Ret active, self') →
  active = [] ∨ ∃ forecast, active = [prediction_alert forecast now].
Proof.
  intros Hnone H. apply analyze_returns_inv in H as (_ & -> & _).
  apply run_checks_unstamped, Hnone.
Qed.

Lemma unstamped_snapshot_only_forecast_witness :
  emitted (run_checks thresholds_high_1100 7 unstamped_snapshot
             (emission_history linear_emissions)) = [] ∨
  ∃ forecast,
    emitted (run_checks thresholds_high_1100 7 unstamped_snapshot
               (emission_history linear_emissions))
    = [prediction_alert forecast 7].
Proof.
  eapply (unstamped_snapshot_only_forecast thresholds_high_1100 7
            unstamped_snapshot (emission_history linear_emissions) init).
  - reflexivity.
  - vm_compute. reflexivity.
Defined.

(** ** Thresholds set by the dashboard *)

(** X4: when [carbon_emission_high] is not below
    [carbon_emission_critical] (the slider of the dashboard goes up to
    2000, the critical level stays at 1500), the level check never appends
    the warning/high alert: every alert it appends is the error/critical
    one, and an emission between the two levels appends nothing. *)
Theorem level_warning_unreachable th (cur : dict) (e : Q) :
  carbon_emission_critical th <= carbon_emission_high th →
  Forall (λ a, type a = "error" ∧ priority a = "critical")
    (emitted (carbon_level_block th cur e)) ∧
  (e <= carbon_emission_critical th → emitted (carbon_level_block th cur e) = []).
Proof.
  intros Hle. unfold carbon_level_block.
  destruct (Qltb (carbon_emission_critical th) e) eqn:Hc.
  - split.
    + unfold getitem. destruct (cur !! "timestamp"); [|constructor].
      rewrite ret_bind. repeat constructor.
    + intros He. apply Qltb_lt in Hc. exfalso. exact (Qlt_not_le _ _ Hc He).
  - apply Qltb_ge in Hc.
    assert (Hh : Qltb (carbon_emission_high th) e = false).
    { apply Qltb_ge. eapply Qle_trans; [exact Hc|exact Hle]. }
    rewrite Hh. split; [constructor|reflexivity].
Qed.

Lemma level_warning_unreachable_witness :
  emitted (carbon_level_block thresholds_high_1800 quiet_snapshot 1400) = [].
Proof.
  apply (level_warning_unreachable thresholds_high_1800 quiet_snapshot 1400);
    discriminate.
Defined.

(** ** Short histories and windows *)

Lemma carbon_trend_block_short cur trend :
  (length trend < 3)%nat → carbon_trend_block cur trend = mret tt.
Proof.
  intros H. unfold carbon_trend_block.
  destruct (Nat.leb_spec 3 (length trend)); [lia|reflexivity].
Qed.

Lemma spike_block_short th cur trend c :
  (length trend < 2)%nat → spike_block th cur trend c = mret tt.
Proof.
  intros H. unfold spike_block.
  destruct (Nat.leb_spec 2 (length trend)); [lia|reflexivity].
Qed.

Lemma vessel_trend_block_short cur trend v :
  (length trend < 4)%nat → vessel_trend_block cur trend v = mret tt.
Proof.
  intros H. unfold vessel_trend_block.
  destruct (Nat.leb_spec 4 (length trend)); [lia|reflexivity].
Qed.

Lemma predictive_short th now trend :
  (length trend < 6)%nat → _check_predictive_alerts th now trend = mret tt.
Proof.
  intros H. unfold _check_predictive_alerts.
  destruct (Nat.leb_spec 6 (length trend)); [lia|reflexivity].
Qed.

Lemma bind_ext {A B} (m : M A) (f g : A → M B) :
  (∀ a, f a = g a) → m ≫= f = m ≫= g.
Proof.
  intros H. destruct m as [w [a|e]]; unfold mbind, M_bind;
    [rewrite H|]; reflexivity.
Qed.

Lemma run_checks_short th now cur trend :
  (length trend < 2)%nat →
  run_checks th now cur trend = run_checks th now cur [].
Proof.
  intros H.
  assert (H1 : _check_carbon_emission_alerts th cur trend
               = _check_carbon_emission_alerts th cur []).
  { unfold _check_carbon_emission_alerts. apply bind_ext. intros e.
    rewrite (carbon_trend_block_short cur trend) by lia.
    rewrite (carbon_trend_block_short cur []) by (simpl; lia). reflexivity. }
  assert (H2 : _check_energy_alerts th cur trend
               = _check_energy_alerts th cur []).
  { unfold _check_energy_alerts. do 3 (apply bind_ext; intros ?).
    rewrite (spike_block_short th cur trend) by lia.
    rewrite (spike_block_short th cur []) by (simpl; lia). reflexivity. }
  assert (H3 : _check_operational_alerts th cur trend
               = _check_operational_alerts th cur []).
  { unfold _check_operational_alerts. apply bind_ext. intros v.
    rewrite (vessel_trend_block_short cur trend) by lia.
    rewrite (vessel_trend_block_short cur []) by (simpl; lia). reflexivity. }
  unfold run_checks. rewrite H1. apply bind_ext. intros _.
  rewrite H2. apply bind_ext. intros _.
  apply bind_ext. intros _. apply bind_ext. intros _.
  rewrite H3. apply bind_ext. intros _. apply bind_ext. intros _.
  rewrite (predictive_short th now trend) by lia.
  rewrite (predictive_short th now []) by (simpl; lia). reflexivity.
Qed.

Lemma run_checks_snapshot_categories th now cur :
  category <$> emitted (run_checks th now cur []) `sublist_of`
  snapshot_categories.
Proof.
  unfold run_checks, _check_carbon_emission_alerts, _check_energy_alerts,
    _check_equipment_alerts, _check_environmental_alerts,
    _check_operational_alerts, snapshot_categories, for_each.
  cbn [foldr].
  apply (bind_categories ["emission"]); [|intros _].
  { apply bind_silent_categories; [auto with silent|]. intros e.
    apply (bind_categories ["emission"] []);
      [apply carbon_level_block_category|].
    intros _. apply sublist_nil_l. }
  apply (bind_categories ["efficiency"; "renewable"]); [|intros _].
  { do 3 (apply bind_silent_categories; [auto with silent|]; intros ?).
    apply (bind_categories ["efficiency"] ["renewable"]);
      [apply efficiency_block_category|]. intros _.
    apply (bind_categories [] ["renewable"]); [apply sublist_nil_l|].
    intros _. apply renewable_block_category. }
  apply (bind_categories ["equipment"; "equipment"; "equipment"]);
    [|intros _].
  { do 3 (apply bind_silent_categories; [auto with silent|]; intros ?).
    apply (bind_categories ["equipment"] ["equipment"; "equipment"]);
      [apply terminal_block_category|]. intros _.
    apply (bind_categories ["equipment"] ["equipment"]);
      [apply terminal_block_category|]. intros _.
    apply (bind_categories ["equipment"] []);
      [apply terminal_block_category|]. intros _.
    apply sublist_nil_l. }
  apply (bind_categories ["weather"; "environment"]); [|intros _].
  { do 2 (apply bind_silent_categories; [auto with silent|]; intros ?).
    apply (bind_categories ["weather"] ["environment"]);
      [apply wind_block_category|]. intros _.
    apply aqi_block_category. }
  apply (bind_categories ["operation"]); [|intros _].
  { apply bind_silent_categories; [auto with silent|]. intros v.
    apply (bind_categories ["operation"] []);
      [apply congestion_block_category|]. intros _.
    apply sublist_nil_l. }
  apply (bind_categories ["esg"] []); [apply esg_category|].
  intros _. apply sublist_nil_l.
Qed.

(** X5: a history of fewer than two records is never read: the cycle
    behaves as on the empty history, whatever the records hold, and its
    alerts are alerts of the current snapshot only, none of a trend, of the
    consumption spike or of the forecast. *)
Theorem short_history_not_read th now (cur : dict) (trend : list dict) :
  (length trend < 2)%nat →
  run_checks th now cur trend = run_checks th now cur [] ∧
  category <$> emitted (run_checks th now cur trend) `sublist_of`
  snapshot_categories.
Proof.
  intros H. rewrite (run_checks_short th now cur trend H).
  split; [reflexivity|apply run_checks_snapshot_categories].
Qed.

Lemma short_history_not_read_witness :
  run_checks default_thresholds 0 alarming_snapshot [∅]
  = run_checks default_thresholds 0 alarming_snapshot [].
Proof.
  apply (short_history_not_read default_thresholds 0 alarming_snapshot [∅]).
  simpl. lia.
Defined.

(** X6: the trend checks look at a window of the history: the carbon trend
    depends on the last three records only and the vessel trend on the last
    four, so that older records, present or not, well formed or not, change
    nothing. *)
Theorem trend_checks_windowed (cur : dict) (older older' window : list dict)
    (v : Q) :
  (length window = 3%nat →
     carbon_trend_block cur (older ++ window)
     = carbon_trend_block cur (older' ++ window)) ∧
  (length window = 4%nat →
     vessel_trend_block cur (older ++ window) v
     = vessel_trend_block cur (older' ++ window) v).
Proof.
  assert (Hw : ∀ n (o : list dict), length window = n →
            py_last_n n (o ++ window) = window ∧
            (n <=? length (o ++ window))%nat = true).
  { intros n o Hn. split.
    - unfold py_last_n. rewrite length_app, Hn.
      replace (length o + n - n)%nat with (length o) by lia.
      apply drop_app_length.
    - apply Nat.leb_le. rewrite length_app. lia. }
  split; intros Hn.
  - unfold carbon_trend_block.
    destruct (Hw 3%nat older Hn) as [-> ->].
    destruct (Hw 3%nat older' Hn) as [-> ->]. reflexivity.
  - unfold vessel_trend_block.
    destruct (Hw 4%nat older Hn) as [-> ->].
    destruct (Hw 4%nat older' Hn) as [-> ->]. reflexivity.
Qed.

Lemma trend_checks_windowed_witness :
  carbon_trend_block quiet_snapshot
    ([∅; ∅] ++ emission_history [100; 110; 125])
  = carbon_trend_block quiet_snapshot ([] ++ emission_history [100; 110; 125]).
Proof.
  apply (trend_checks_windowed quiet_snapshot [∅; ∅] []
           (emission_history [100; 110; 125]) 0).
  reflexivity.
Defined.

(** X7: the spike check never reads the most recent record of the history:
    replacing it by any other record, even one without a consumption,
    leaves the check as it is. *)
Theorem spike_ignores_latest_record th (cur : dict) (trend : list dict)
    (d d' : dict) (consumption : Q) :
  spike_block th cur (trend ++ [d]) consumption
  = spike_block th cur (trend ++ [d']) consumption.
Proof.
  unfold spike_block, py_but_last. rewrite !length_app. simpl length.
  replace (length trend + 1 - 1)%nat with (length trend) by lia.
  rewrite !take_app_length. reflexivity.
Qed.

(** ** The forecast on a line *)





(** ** The equipment check *)




(** ** The checks on a single metric *)

(** X20: with the timestamp present, each check of one metric against a
    threshold appends its alert exactly on a strict crossing and nothing at
    the threshold itself: the efficiency (warning/medium), the renewable
    ratio (info/low) and the ESG score (warning/medium) below their
    thresholds, the vessel count (warning/high) above its threshold and the
    wind speed (warning/medium) above 20. *)
Theorem threshold_checks_strict th (cur : dict) (ts x : Q) :
  cur !! "timestamp" = Some ts →
  (∃ a, type a = "warning" ∧ priority a = "medium" ∧
        efficiency_block th cur x
        = (if Qltb x (energy_efficiency_low th) then [a] else [], Ret tt)) ∧
  (∃ a, type a = "info" ∧ priority a = "low" ∧
        renewable_block th cur x
        = (if Qltb x (renewable_ratio_low th) then [a] else [], Ret tt)) ∧
  (∃ a, type a = "warning" ∧ priority a = "high" ∧
        congestion_block th cur x
        = (if Qltb (vessel_congestion th) x then [a] else [], Ret tt)) ∧
  (∃ a, type a = "warning" ∧ priority a = "medium" ∧
        wind_block cur x = (if Qltb 20 x then [a] else [], Ret tt)) ∧
  (x == energy_efficiency_low th → efficiency_block th cur x = ([], Ret tt)) ∧
  (x == renewable_ratio_low th → renewable_block th cur x = ([], Ret tt)) ∧
  (x == vessel_congestion th → congestion_block th cur x = ([], Ret tt)) ∧
  (x == 20 → wind_block cur x = ([], Ret tt)) ∧
  (cur !! "esg_score" = Some x →
     ∃ a, type a = "warning" ∧ priority a = "medium" ∧
          _check_esg_alerts th cur
          = (if Qltb x (esg_score_low th) then [a] else [], Ret tt)).
Proof.
  intros Hts.
  unfold efficiency_block, renewable_block, congestion_block, wind_block,
    _check_esg_alerts.
  rewrite (getitem_Some _ _ _ Hts), !ret_bind.
  repeat split.
  - eexists. split; [|split]; [| |destruct (Qltb _ _); reflexivity];
      reflexivity.
  - eexists. split; [|split]; [| |destruct (Qltb _ _); reflexivity];
      reflexivity.
  - eexists. split; [|split]; [| |destruct (Qltb _ _); reflexivity];
      reflexivity.
  - eexists. split; [|split]; [| |destruct (Qltb _ _); reflexivity];
      reflexivity.
  - intros E. assert (F : Qltb x (energy_efficiency_low th) = false)
      by (apply Qltb_ge; rewrite E; apply Qle_refl).
    rewrite F. reflexivity.
  - intros E. assert (F : Qltb x (renewable_ratio_low th) = false)
      by (apply Qltb_ge; rewrite E; apply Qle_refl).
    rewrite F. reflexivity.
  - intros E. assert (F : Qltb (vessel_congestion th) x = false)
      by (apply Qltb_ge; rewrite E; apply Qle_refl).
    rewrite F. reflexivity.
  - intros E. assert (F : Qltb 20 x = false)
      by (apply Qltb_ge; rewrite E; apply Qle_refl).
    rewrite F. reflexivity.
  - intros Hx. rewrite (getitem_Some _ _ _ Hx), ret_bind.
    eexists. split; [|split]; [| |destruct (Qltb _ _); reflexivity];
      reflexivity.
Qed.

Lemma threshold_checks_strict_witness :
  efficiency_block default_thresholds quiet_snapshot 70 = ([], Ret tt).
Proof.
  destruct (threshold_checks_strict default_thresholds quiet_snapshot 9 70)
    as (_ & _ & _ & _ & H & _); [reflexivity|].
  apply H. reflexivity.
Defined.

(** X21: with the timestamp present, the air-quality check appends one
    warning/medium alert exactly when the index exceeds 100; the alert
    names the level "unhealthy" above 150 and "unhealthy for sensitive
    groups" from 101 to 150. *)
Theorem aqi_alert_levels (cur : dict) (ts aqi : Q) :
  cur !! "timestamp" = Some ts →
  (aqi <= 100 → aqi_block cur aqi = ([], Ret tt)) ∧
  (100 < aqi →
     ∃ a, aqi_block cur aqi = ([a], Ret tt) ∧
          type a = "warning" ∧ priority a = "medium" ∧
          category a = "environment" ∧ In (Plain aqi) (message a) ∧
          (150 < aqi → In (Lit "不健康") (message a)) ∧
          (aqi <= 150 → In (Lit "對敏感族群不健康") (message a))).
Proof.
  intros Hts. unfold aqi_block.
  rewrite (getitem_Some _ _ _ Hts), !ret_bind. split.
  - intros H. apply Qltb_ge in H. rewrite H. reflexivity.
  - intros H. apply Qltb_lt in H. rewrite H.
    eexists. split; [reflexivity|]. repeat split.
    + simpl. auto.
    + intros H'. apply Qltb_lt in H'. rewrite H'. simpl. auto.
    + intros H'. apply Qltb_ge in H'. rewrite H'. simpl. auto.
Qed.

Lemma aqi_alert_levels_witness :
  ∃ a, aqi_block quiet_snapshot 120 = ([a], Ret tt) ∧
       type a = "warning" ∧ priority a = "medium" ∧
       category a = "environment" ∧ In (Plain 120) (message a) ∧
       (150 < 120 → In (Lit "不健康") (message a)) ∧
       (120 <= 150 → In (Lit "對敏感族群不健康") (message a)).
Proof.
  apply (aqi_alert_levels quiet_snapshot 9 120); reflexivity.
Defined.

(** ** The vessel trend *)

Lemma list_of_length_4 {A} (l : list A) :
  length l = 4%nat → ∃ a b c d, l = [a; b; c; d].
Proof.
  destruct l as [|a [|b [|c [|d [|e l]]]]]; simpl; try discriminate.
  intros _. eauto.
Qed.

(** X22: with the timestamp present and the vessel counts readable, the
    vessel-trend check appends its info/medium alert exactly when the
    history has at least 4 records and the last 4 vessel counts rise
    strictly, however small the rise and whatever the current count, which
    the alert only reports. *)
Theorem vessel_trend_fires_iff (cur : dict) (trend : list dict)
    (vs : list Q) (ts vessel_count : Q) :
  cur !! "timestamp" = Some ts →
  Forall2 (λ d v, d !! "vessel_count" = Some v) trend vs →
  ((∃ a b c d, py_last_n 4 vs = [a; b; c; d] ∧ a < b ∧ b < c ∧ c < d) →
     ∃ alert,
       vessel_trend_block cur trend vessel_count = ([alert], Ret tt) ∧
       type alert = "info" ∧ priority alert = "medium" ∧
       category alert = "trend" ∧ In (Plain vessel_count) (message alert)) ∧
  ((¬ ∃ a b c d, py_last_n 4 vs = [a; b; c; d] ∧ a < b ∧ b < c ∧ c < d) →
     vessel_trend_block cur trend vessel_count = ([], Ret tt)).
Proof.
  intros Hts Hvs.
  assert (Hlen : length trend = length vs) by exact (Forall2_length _ _ _ Hvs).
  assert (Hmap : mapM (λ d, getitem d "vessel_count") (py_last_n 4 trend)
                 = mret (py_last_n 4 vs))
    by (apply mapM_getitem, py_last_n_Forall2, Hvs).
  unfold vessel_trend_block. rewrite Hlen, (getitem_Some _ _ _ Hts).
  split.
  - intros (a & b & c & d & Hl & Hab & Hbc & Hcd).
    assert (Hn : (4 ≤ length vs)%nat).
    { pose proof (py_last_n_length 4 vs) as E. rewrite Hl in E.
      cbn [length] in E. lia. }
    destruct (Nat.leb_spec 4 (length vs)); [|lia].
    rewrite Hmap, ret_bind, Hl. simpl strictly_increasing.
    rewrite (proj2 (Qltb_lt _ _) Hab), (proj2 (Qltb_lt _ _) Hbc),
      (proj2 (Qltb_lt _ _) Hcd). simpl andb. rewrite ret_bind.
    eexists. split; [reflexivity|]. repeat split. simpl. auto.
  - intros Hno.
    destruct (Nat.leb_spec 4 (length vs)) as [Hn|Hn]; [|reflexivity].
    rewrite Hmap, ret_bind.
    destruct (list_of_length_4 (py_last_n 4 vs)) as (a & b & c & d & Hl).
    { rewrite py_last_n_length. lia. }
    rewrite Hl. simpl strictly_increasing.
    destruct (Qltb a b) eqn:Hab; [|reflexivity].
    destruct (Qltb b c) eqn:Hbc; [|reflexivity].
    destruct (Qltb c d) eqn:Hcd; [|reflexivity].
    exfalso. apply Hno. exists a, b, c, d.
    rewrite <- !Qltb_lt. auto.
Qed.

Lemma vessel_trend_fires_iff_witness :
  ∃ alert,
    vessel_trend_block quiet_snapshot alarming_history 7 = ([alert], Ret tt) ∧
    type alert = "info" ∧ priority alert = "medium" ∧
    category alert = "trend" ∧ In (Plain 7) (message alert).
Proof.
  apply (vessel_trend_fires_iff quiet_snapshot alarming_history
           [1; 2; 3; 4; 5; 6] 9 7).
  - reflexivity.
  - repeat constructor.
  - exists 3, 4, 5, 6. repeat split.
Defined.

(** ** Eviction from the alert history *)

(** X23: when the history and the alerts of a returning cycle together
    exceed 50 entries, the cycle drops exactly the oldest entries in excess
    and keeps the rest of the history, in order, in front of its own alerts;
    a full history loses as many entries as the cycle appends. *)
Theorem history_evicts_oldest th now (cur : dict) (trend : list dict)
    (self self' : AlertEngine) (active : list Alert) :
  analyze_and_generate_alerts th now cur trend self = (Ret active, self') →
  (50 < length (alert_history self) + length active)%nat →
  alert_history self'
  = drop (length (alert_history self) + length active - 50)
      (alert_history self) ++ active ∧
  length (alert_history self') = 50%nat ∧
  (length (alert_history self) = 50%nat →
     alert_history self' = drop (length active) (alert_history self) ++ active).
Proof.
  intros H Hover.
  pose proof (run_checks_length th now cur trend) as Hk.
  apply analyze_returns_inv in H as (_ & Ha & _ & Hh).
  rewrite <- Ha in Hk.
  assert (E : alert_history self'
              = drop (length (alert_history self) + length active - 50)
                  (alert_history self) ++ active).
  { rewrite Hh. unfold py_last_n. rewrite length_app.
    apply drop_app_le. lia. }
  split; [exact E|]. split.
  - rewrite E, length_app, length_drop. lia.
  - intros Hfull. rewrite E, Hfull. f_equal. f_equal. lia.
Qed.

Lemma history_evicts_oldest_witness :
  length (alert_history (alarming_cycle full_engine)) = 50%nat.
Proof.
  eapply (history_evicts_oldest default_thresholds 0 alarming_snapshot
            alarming_history full_engine).
  - vm_compute. reflexivity.
  - vm_compute. lia.
Defined.

(** ** The window of the history *)

(** X24: [get_trend_data] returns the end of the history, in order: the
    last [hours] records when the history is longer, the whole history when
    it is not, and also the whole history, not an empty window, when
    [hours] is 0. *)
Theorem trend_window_is_suffix (historical_data : list dict) (hours : nat) :
  get_trend_data historical_data hours `suffix_of` historical_data ∧
  ((0 < hours)%nat →
     length (get_trend_data historical_data hours)
     = Nat.min hours (length historical_data)) ∧
  ((length historical_data ≤ hours)%nat →
     get_trend_data historical_data hours = historical_data) ∧
  get_trend_data historical_data 0 = historical_data.
Proof.
  unfold get_trend_data. split; [|split; [|split]].
  - destruct hours; [reflexivity|apply suffix_drop].
  - intros H. destruct hours; [lia|apply py_last_n_length].
  - intros H. destruct hours; [reflexivity|]. unfold py_last_n.
    replace (_ - _)%nat with 0%nat by lia. reflexivity.
  - reflexivity.
Qed.

Lemma trend_window_is_suffix_witness :
  length (get_trend_data alarming_history 4) = Nat.min 4 (length alarming_history).
Proof. apply (trend_window_is_suffix alarming_history 4). lia. Defined.

(** * Properties of the calculator, the generator and the dashboard *)

(** ** Rounding *)



Lemma inject_Z_lt_succ (a b : Z) : inject_Z a < inject_Z b + 1 → (a <= b)%Z.
Proof.
  intros H. change 1 with (inject_Z 1) in H. rewrite <- inject_Z_plus in H.
  rewrite <- Zlt_Qlt in H. lia.
Qed.

Lemma py_round_monotone (p q : Q) : p <= q → (py_round p <= py_round q)%Z.
Proof.
  intros Hpq.
  pose proof (Qfloor_resp_le _ _ Hpq) as Hf.
  destruct (Z.eq_dec (Qfloor p) (Qfloor q)) as [Heq|Hne].
  - unfold py_round. rewrite Heq.
    set (f := Qfloor q) in *.
    destruct (Qltb (p - inject_Z f) (1 # 2)) eqn:P1.
    { repeat match goal with |- context [if ?c then _ else _] => destruct c end;
        lia. }
    apply Qltb_ge in P1.
    assert (Q1 : Qltb (q - inject_Z f) (1 # 2) = false) by (apply Qltb_ge; lra).
    rewrite Q1.
    destruct (Qltb (1 # 2) (p - inject_Z f)) eqn:P2.
    { apply Qltb_lt in P2.
      assert (Q2 : Qltb (1 # 2) (q - inject_Z f) = true) by (apply Qltb_lt; lra).
      rewrite Q2. lia. }
    repeat match goal with |- context [if ?c then _ else _] => destruct c end;
      lia.
  - assert (Hlt : (Qfloor p + 1 <= Qfloor q)%Z) by lia.
    assert (Hp : (py_round p <= Qfloor p + 1)%Z).
    { unfold py_round.
      repeat match goal with |- context [if ?c then _ else _] => destruct c end;
        lia. }
    assert (Hq : (Qfloor q <= py_round q)%Z).
    { unfold py_round.
      repeat match goal with |- context [if ?c then _ else _] => destruct c end;
        lia. }
    lia.
Qed.


Lemma py_max_spec (a b : Q) :
  a <= py_max a b ∧ b <= py_max a b ∧ (py_max a b = a ∨ py_max a b = b).
Proof.
  unfold py_max. destruct (Qltb a b) eqn:E.
  - apply Qltb_lt in E. repeat split; [lra|lra|auto].
  - apply Qltb_ge in E. repeat split; [lra|lra|auto].
Qed.

Lemma py_min_spec (a b : Q) :
  py_min a b <= a ∧ py_min a b <= b ∧ (py_min a b = a ∨ py_min a b = b).
Proof.
  unfold py_min. destruct (Qltb b a) eqn:E.
  - apply Qltb_lt in E. repeat split; [lra|lra|auto].
  - apply Qltb_ge in E. repeat split; [lra|lra|auto].
Qed.

Lemma py_max_monotone (a b b' : Q) : b <= b' → py_max a b <= py_max a b'.
Proof.
  intros H. unfold py_max.
  destruct (Qltb a b) eqn:E1; destruct (Qltb a b') eqn:E2;
    try apply Qltb_lt in E1; try apply Qltb_ge in E1;
    try apply Qltb_lt in E2; try apply Qltb_ge in E2; lra.
Qed.

Lemma py_min_monotone (a b b' : Q) : b <= b' → py_min a b <= py_min a b'.
Proof.
  intros H. unfold py_min.
  destruct (Qltb b a) eqn:E1; destruct (Qltb b' a) eqn:E2;
    try apply Qltb_lt in E1; try apply Qltb_ge in E1;
    try apply Qltb_lt in E2; try apply Qltb_ge in E2; lra.
Qed.

(** ** The ESG score *)



(** X10: the ESG score never decreases when the carbon emission decreases,
    the energy efficiency increases or the renewable ratio increases. *)
Theorem esg_score_monotone (c c' e e' r r' : Q) :
  c' <= c → e <= e' → r <= r' →
  (calculate_esg_score c e r <= calculate_esg_score c' e' r')%Z.
Proof.
  intros Hc He Hr. unfold calculate_esg_score.
  apply py_round_monotone, py_min_monotone, py_max_monotone.
  assert (H : py_max 0 (100 - c / 10) <= py_max 0 (100 - c' / 10)).
  { apply py_max_monotone. unfold Qdiv. change (/ 10) with (1 # 10). lra. }
  lra.
Qed.

Lemma esg_score_monotone_witness :
  (calculate_esg_score 900 70 10 <= calculate_esg_score 500 80 25)%Z.
Proof. apply (esg_score_monotone 900 500 70 80 10 25); discriminate. Defined.

(** ** The emission estimates *)







(** X12: a fuel type that is not in the table is charged as diesel, and the
    estimate for port equipment is the ship estimate for the fuel type
    electricity with the power as the consumption. *)
Theorem emission_factor_fallback (fuel_type : string)
    (operation_hours fuel_consumption : Q) :
  (EMISSION_FACTORS !! fuel_type = None →
     calculate_ship_emissions fuel_type operation_hours fuel_consumption
     = calculate_ship_emissions "diesel" operation_hours fuel_consumption) ∧
  calculate_port_equipment_emissions fuel_consumption operation_hours
  = calculate_ship_emissions "electricity" operation_hours fuel_consumption.
Proof.
  split.
  - intros H. unfold calculate_ship_emissions, dict_get. rewrite H.
    reflexivity.
  - reflexivity.
Qed.

Lemma emission_factor_fallback_witness :
  calculate_ship_emissions "coal" 8 100 = calculate_ship_emissions "diesel" 8 100.
Proof. apply (emission_factor_fallback "coal" 8 100). reflexivity. Defined.

(** ** Sorting *)

Lemma py_insert_Permutation {A K} (ltb : K → K → bool) (key : A → K) x l :
  py_insert ltb key x l ≡ₚ x :: l.
Proof.
  induction l as [|y l IH]; simpl; [reflexivity|].
  destruct (ltb (key y) (key x)); [|reflexivity].
  rewrite IH. apply Permutation_swap.
Qed.

Lemma py_sorted_Permutation {A K} (ltb : K → K → bool) (key : A → K) l :
  py_sorted ltb key l ≡ₚ l.
Proof.
  induction l as [|x l IH]; simpl; [reflexivity|].
  rewrite py_insert_Permutation, IH. reflexivity.
Qed.

Lemma py_insert_last {A K} (ltb : K → K → bool) (key : A → K) x l :
  Forall (λ y, ltb (key y) (key x) = true) l →
  py_insert ltb key x l = l ++ [x].
Proof.
  induction 1 as [|y l Hy _ IH]; simpl; [reflexivity|].
  rewrite Hy, IH. reflexivity.
Qed.

(** A list in strictly descending order of the keys is reversed. *)
Lemma py_sorted_descending {A K} (ltb : K → K → bool) (key : A → K) l :
  StronglySorted (λ a b, ltb (key b) (key a) = true) l →
  py_sorted ltb key l = reverse l.
Proof.
  induction 1 as [|x l _ IH Hx]; simpl; [reflexivity|].
  rewrite IH, reverse_cons. apply py_insert_last.
  apply Forall_reverse. exact Hx.
Qed.

Lemma py_insert_sorted {A} (key : A → nat) x l :
  StronglySorted (λ a b, key a ≤ key b) l →
  StronglySorted (λ a b, key a ≤ key b) (py_insert Nat.ltb key x l).
Proof.
  induction 1 as [|y l Hl IH Hy]; simpl; [repeat constructor|].
  destruct (Nat.ltb_spec (key y) (key x)) as [Hlt|Hge].
  - constructor; [exact IH|].
    rewrite py_insert_Permutation. constructor; [lia|exact Hy].
  - constructor; [constructor; assumption|].
    constructor; [exact Hge|].
    eapply Forall_impl; [exact Hy|]. simpl. intros; lia.
Qed.

Lemma py_insert_stable {A} (key : A → nat) (r : nat) x l :
  StronglySorted (λ a b, key a ≤ key b) l →
  filter (λ a, key a = r) (py_insert Nat.ltb key x l)
  = filter (λ a, key a = r) (x :: l).
Proof.
  induction 1 as [|y l Hl IH Hy]; simpl; [reflexivity|].
  destruct (Nat.ltb_spec (key y) (key x)) as [Hlt|Hge]; [|reflexivity].
  rewrite filter_cons, IH, !filter_cons.
  destruct (decide (key y = r)) as [Hyr|Hyr];
    destruct (decide (key x = r)) as [Hxr|Hxr]; try reflexivity.
  lia.
Qed.

Lemma py_sorted_sorted {A} (key : A → nat) l :
  StronglySorted (λ a b, key a ≤ key b) (py_sorted Nat.ltb key l).
Proof.
  induction l as [|x l IH]; simpl; [constructor|].
  apply py_insert_sorted, IH.
Qed.

Lemma py_sorted_stable {A} (key : A → nat) (r : nat) l :
  filter (λ a, key a = r) (py_sorted Nat.ltb key l)
  = filter (λ a, key a = r) l.
Proof.
  induction l as [|x l IH]; simpl; [reflexivity|].
  rewrite py_insert_stable by apply py_sorted_sorted.
  rewrite !filter_cons, IH. reflexivity.
Qed.

Lemma well_formed_rank (a : Alert) :
  well_formed_alert a → (priority_rank a ≤ 3)%nat.
Proof.
  intros (_ & Hp & _). unfold priority_rank. simpl in Hp.
  destruct Hp as [<-|[<-|[<-|[<-|[]]]]]; vm_compute; lia.
Qed.

(** X13: the display order of the alert tab is a rearrangement of the
    active alerts in which the priority ranks never decrease (critical,
    high, medium, low) and alerts of equal priority keep the order in which
    the engine returned them; the alerts of the engine all have a rank
    below the default rank 4. *)
Theorem sorted_alerts_stable (active : list Alert) :
  sorted_alerts active ≡ₚ active ∧
  StronglySorted (λ a b, (priority_rank a ≤ priority_rank b)%nat)
    (sorted_alerts active) ∧
  (∀ r, filter (λ a, priority_rank a = r) (sorted_alerts active)
        = filter (λ a, priority_rank a = r) active) ∧
  (Forall well_formed_alert active →
     Forall (λ a, (priority_rank a ≤ 3)%nat) (sorted_alerts active)).
Proof.
  unfold sorted_alerts. split; [apply py_sorted_Permutation|].
  split; [apply py_sorted_sorted|]. split; [intros r; apply py_sorted_stable|].
  intros H. rewrite py_sorted_Permutation.
  eapply Forall_impl; [exact H|]. apply well_formed_rank.
Qed.

Lemma sorted_alerts_stable_witness :
  Forall (λ a, (priority_rank a ≤ 3)%nat)
    (sorted_alerts
       (emitted (run_checks default_thresholds 0 alarming_snapshot
                   alarming_history))).
Proof.
  apply (sorted_alerts_stable
           (emitted (run_checks default_thresholds 0 alarming_snapshot
                       alarming_history))).
  eapply Forall_impl; [apply (run_checks_stamped _ _ alarming_snapshot)|].
  intros a [Hw _]. exact Hw.
Defined.

(** ** The status lines of the dashboard *)

Section status_lines.
Context (cur : dict) (ts : Q).
Hypothesis Hts : cur !! "timestamp" = Some ts.

Lemma terminal_status_alert terminal power :
  terminal_status power = "⚠️ 異常" ↔
  emitted (terminal_block cur (terminal, power)) ≠ [].
Proof.
  unfold terminal_status, terminal_block.
  rewrite (getitem_Some _ _ _ Hts), !ret_bind.
  destruct (Qltb 700 power); [simpl; split; [discriminate|reflexivity]|].
  destruct (Qltb power 100); simpl; split;
    first [discriminate | reflexivity | contradiction].
Qed.

Lemma wind_status_alert wind_speed :
  wind_status wind_speed = "⚠️ 強風" ↔
  emitted (wind_block cur wind_speed) ≠ [].
Proof.
  unfold wind_status, wind_block.
  rewrite (getitem_Some _ _ _ Hts), !ret_bind.
  destruct (Qltb 20 wind_speed); simpl; split;
    first [discriminate | reflexivity | contradiction].
Qed.

Lemma aqi_status_alert aqi :
  aqi_status aqi = "⚠️ 不良" ↔ emitted (aqi_block cur aqi) ≠ [].
Proof.
  unfold aqi_status, aqi_block.
  rewrite (getitem_Some _ _ _ Hts), !ret_bind.
  destruct (Qltb 100 aqi); simpl; split;
    first [discriminate | reflexivity | contradiction].
Qed.
End status_lines.

(** X14: the status lines of the dashboard agree with the engine on one
    snapshot: a terminal is shown as abnormal exactly when the equipment
    check appends an alert for it, the wind as strong exactly when the
    weather alert is appended and the air quality as bad exactly when the
    air-quality alert is appended. *)
Theorem status_lines_agree (cur : dict) (ts : Q) (terminal : string)
    (power wind_speed aqi : Q) :
  cur !! "timestamp" = Some ts →
  (terminal_status power = "⚠️ 異常" ↔
   emitted (terminal_block cur (terminal, power)) ≠ []) ∧
  (wind_status wind_speed = "⚠️ 強風" ↔
   emitted (wind_block cur wind_speed) ≠ []) ∧
  (aqi_status aqi = "⚠️ 不良" ↔ emitted (aqi_block cur aqi) ≠ []).
Proof.
  intros Hts. split; [|split].
  - apply (terminal_status_alert cur ts Hts).
  - apply (wind_status_alert cur ts Hts).
  - apply (aqi_status_alert cur ts Hts).
Qed.

Lemma status_lines_agree_witness :
  terminal_status 800 = "⚠️ 異常" ↔
  emitted (terminal_block quiet_snapshot ("第1號碼頭", 800)) ≠ [].
Proof.
  apply (status_lines_agree quiet_snapshot 9 "第1號碼頭" 800 0 0).
  reflexivity.
Defined.

(** ** The simulated history *)

Lemma historical_record_timestamp base_time i r :
  default 0 (historical_record base_time i r !! "timestamp")
  = base_time - timedelta_hours i.
Proof. reflexivity. Qed.

Lemma StronglySorted_fmap_seq {A} (R : A → A → Prop) (f : nat → A) a n :
  (∀ i j, (i < j)%nat → R (f i) (f j)) →
  StronglySorted R (f <$> seq a n).
Proof.
  intros HR. revert a. induction n as [|n IH]; intros a; simpl;
    constructor; [apply IH|].
  apply Forall_fmap, Forall_seq. intros j Hj. apply HR. lia.
Qed.

Lemma timedelta_hours_lt (i j : nat) :
  (i < j)%nat → timedelta_hours i < timedelta_hours j.
Proof.
  intros H. unfold timedelta_hours.
  assert (inject_Z (Z.of_nat i) < inject_Z (Z.of_nat j))
    by (rewrite <- Zlt_Qlt; lia).
  lra.
Qed.

Lemma initial_history_reversed base_time random :
  _initialize_historical_data base_time random
  = reverse ((λ i, historical_record base_time i (random i)) <$> seq 0 24).
Proof.
  unfold _initialize_historical_data. apply py_sorted_descending.
  apply StronglySorted_fmap_seq. intros i j Hij.
  rewrite !historical_record_timestamp. apply Qltb_lt.
  pose proof (timedelta_hours_lt i j Hij). lra.
Qed.

(** X15: the simulated history holds 24 records, oldest first: the record
    at index [k] is the one of [23 - k] hours before the base time, so that
    the last record is the one of the base time; the window that the engine
    asks for, [get_trend_data()] with 6 hours, is the last six hours in the
    same order. *)
Theorem initial_history_oldest_first (base_time : Q) (random : nat → draws) :
  let history := _initialize_historical_data base_time random in
  length history = 24%nat ∧
  history
  = (λ k, historical_record base_time (23 - k) (random (23 - k)%nat))
    <$> seq 0 24 ∧
  last history = Some (historical_record base_time 0 (random 0%nat)) ∧
  get_trend_data history 6
  = (λ k, historical_record base_time (5 - k) (random (5 - k)%nat))
    <$> seq 0 6.
Proof.
  cbv zeta. rewrite initial_history_reversed. repeat split.
Qed.

(** ** The latest snapshot *)

Ltac read_latest H :=
  unfold get_latest_data in H;
  match type of H with
  | context [last ?l] => destruct (last l) eqn:?; [|discriminate H]
  end;
  repeat match type of H with
         | context [getitem ?d ?k] =>
             let E := fresh "E" in
             destruct (d !! k) eqn:E;
             [ rewrite (getitem_Some _ _ _ E), ret_bind in H
             | rewrite (getitem_None _ _ E) in H; discriminate H ]
         end.

(** X16: whatever the draws, the snapshot returned by [get_latest_data] has
    its energy efficiency and its ESG score between 0 and 100, its
    renewable ratio between 0 and 50, its air quality index between 0 and
    300, a vessel count and a wind speed that are not negative, and the
    time of the call as its timestamp. *)
Theorem latest_data_clamped (historical_data : list dict) (now : Q)
    (r : draws) (current : dict) :
  get_latest_data historical_data now r = mret current →
  current !! "timestamp" = Some now ∧
  (∃ v, current !! "energy_efficiency" = Some v ∧ 0 <= v ∧ v <= 100) ∧
  (∃ v, current !! "esg_score" = Some v ∧ 0 <= v ∧ v <= 100) ∧
  (∃ v, current !! "renewable_ratio" = Some v ∧ 0 <= v ∧ v <= 50) ∧
  (∃ v, current !! "air_quality_aqi" = Some v ∧ 0 <= v ∧ v <= 300) ∧
  (∃ v, current !! "vessel_count" = Some v ∧ 0 <= v) ∧
  (∃ v, current !! "weather_wind_speed" = Some v ∧ 0 <= v).
Proof.
  intros H. read_latest H.
  injection H as <-.
  assert (Hclamp : ∀ hi x, 0 <= hi →
            0 <= py_max 0 (py_min hi x) ∧ py_max 0 (py_min hi x) <= hi).
  { intros hi x Hhi. split; [apply py_max_spec|].
    destruct (py_max_spec 0 (py_min hi x)) as (_ & _ & [-> | ->]);
      [exact Hhi|apply py_min_spec]. }
  split; [apply lookup_union_Some_l; reflexivity|].
  repeat split;
    (eexists; split; [apply lookup_union_Some_l; reflexivity|]);
    first [ apply Hclamp; discriminate | apply py_max_spec ].
Qed.

Lemma latest_data_clamped_witness :
  ∃ current,
    get_latest_data [quiet_snapshot] 10 extreme_draws = mret current ∧
    ∃ v, current !! "renewable_ratio" = Some v ∧ 0 <= v ∧ v <= 50.
Proof.
  eexists. split; [reflexivity|].
  eapply (latest_data_clamped [quiet_snapshot] 10 extreme_draws).
  reflexivity.
Defined.

Lemma get_latest_data_returns (historical_data : list dict) (now : Q)
    (r : draws) (latest : dict) :
  last historical_data = Some latest →
  Forall (λ k, is_Some (latest !! k)) required_fields →
  ∃ current,
    get_latest_data historical_data now r = mret current ∧
    complete_snapshot current ∧
    (∀ k, k ∉ "timestamp" :: required_fields → current !! k = latest !! k).
Proof.
  intros Hlast Hall. unfold required_fields in Hall.
  repeat (apply Forall_cons_1 in Hall as [[? ?] Hall]).
  unfold get_latest_data. rewrite Hlast.
  repeat match goal with
         | H : latest !! _ = Some _ |- _ =>
             rewrite (getitem_Some _ _ _ H), ret_bind; clear H
         end.
  eexists. split; [reflexivity|]. split.
  - split; [eexists; apply lookup_union_Some_l; reflexivity|].
    unfold required_fields.
    repeat constructor; eexists; apply lookup_union_Some_l; reflexivity.
  - intros k Hk. apply lookup_union_r, not_elem_of_list_to_map_1.
    intros Hin. apply Hk. simpl in Hin. unfold required_fields.
    repeat (apply elem_of_cons in Hin as [->|Hin];
            [repeat (first [left | right])|]).
    apply elem_of_nil in Hin. contradiction.
Qed.



(** ** A cycle of the dashboard on the simulated data *)

Lemma historical_record_complete base_time i r :
  Forall (λ k, is_Some (historical_record base_time i r !! k)) required_fields.
Proof. unfold required_fields. repeat constructor; eexists; reflexivity. Qed.

Lemma initial_ranges_nonzero (r : draws) :
  initial_ranges r → ¬ rand_carbon_emission r == 0.
Proof. intros [[H _] _] H0. lra. Qed.

(** X18: on the simulated data the evaluation cycle of the dashboard always
    returns: with an initial history drawn inside the intervals of the
    generator, [get_latest_data] returns a snapshot whatever its draws, the
    window of the engine holds 6 records, and
    [analyze_and_generate_alerts] on them returns its list of at most 14
    alerts without raising. *)
Theorem simulated_cycle_returns th (base_time now now' : Q)
    (random : nat → draws) (r : draws) (self : AlertEngine) :
  (∀ i, initial_ranges (random i)) →
  let history := _initialize_historical_data base_time random in
  length (get_trend_data history 6) = 6%nat ∧
  ∃ current active self',
    get_latest_data history now r = mret current ∧
    analyze_and_generate_alerts th now' current (get_trend_data history 6) self
    = (Ret active, self') ∧
    (length active ≤ 14)%nat.
Proof.
  intros Hr. cbv zeta.
  assert (Hlast : last (_initialize_historical_data base_time random)
                  = Some (historical_record base_time 0 (random 0%nat)))
    by (rewrite initial_history_reversed; reflexivity).
  assert (Htrend : get_trend_data
                     (_initialize_historical_data base_time random) 6
                   = (λ k, historical_record base_time (5 - k)
                             (random (5 - k)%nat)) <$> seq 0 6)
    by (rewrite initial_history_reversed; reflexivity).
  split; [rewrite Htrend; reflexivity|].
  destruct (get_latest_data_returns _ now r _ Hlast
              (historical_record_complete _ _ _)) as (cur & Hcur & Hc & _).
  exists cur.
  assert (Hh : complete_history
                 (get_trend_data (_initialize_historical_data base_time random) 6)
                 ((λ k, rand_carbon_emission (random (5 - k)%nat)) <$> seq 0 6)).
  { rewrite Htrend. split; [|split].
    - simpl. repeat constructor.
    - simpl.
      repeat (constructor; [apply initial_ranges_nonzero, Hr|]).
      constructor.
    - simpl. repeat constructor; eexists; reflexivity. }
  pose proof (run_checks_returns th now' cur _ _ Hc Hh) as Hret.
  eexists _, _. split; [exact Hcur|]. split.
  - unfold analyze_and_generate_alerts. rewrite Hret. reflexivity.
  - cbn [active_alerts _update_alert_history]. apply run_checks_length.
Qed.

Lemma simulated_cycle_returns_witness :
  length (get_trend_data (_initialize_historical_data 0 steady_draws) 6)
  = 6%nat.
Proof.
  apply (simulated_cycle_returns default_thresholds 0 1 1 steady_draws
           extreme_draws init).
  intros i. unfold initial_ranges. simpl. repeat split; discriminate.
Defined.
